(** * gh-node-api: key-casing transformer, request validation and route handlers

    A shallow embedding of
      - [utils/toCamelCaseParser.js]  (the key-casing transformer),
      - [routes/index.js]             (the two validated GitHub proxy routes),
      - [index.js]                    (the 404 fallback middleware),
    together with the parts of the JavaScript platform they run on (string
    replacement, object property assignment, express-validator chains,
    Express responses, Octokit requests) that their behaviour depends on. *)

From Stdlib Require Import Ascii String List ZArith NArith QArith.
From stdpp Require Import base strings gmap list pretty.

Local Open Scope string_scope.
Local Open Scope list_scope.

(** ** Characters and strings

    A JavaScript string is modelled by the Rocq string of its UTF-8
    encoding.  Every character class used by the code is ASCII only: the
    pattern [[-_][a-z]] with the [i] flag (and no [u] flag) matches the two
    delimiters and the 52 ASCII letters, so any other character (whose bytes
    are all above the ASCII range) is copied through unchanged. *)

Module Char.

Definition code (c : ascii) : N := N_of_ascii c.

Definition is_lower (c : ascii) : bool := (97 <=? code c)%N && (code c <=? 122)%N.
Definition is_upper (c : ascii) : bool := (65 <=? code c)%N && (code c <=? 90)%N.
Definition is_digit (c : ascii) : bool := (48 <=? code c)%N && (code c <=? 57)%N.

(** [[a-z]] under the [i] flag. *)
Definition is_letter (c : ascii) : bool := is_lower c || is_upper c.

(** [[a-z\d]] under the [i] flag. *)
Definition is_alnum (c : ascii) : bool := is_letter c || is_digit c.

Definition is_hyphen (c : ascii) : bool := (code c =? 45)%N.
Definition is_underscore (c : ascii) : bool := (code c =? 95)%N.

(** [[-_]] *)
Definition is_delim (c : ascii) : bool := is_hyphen c || is_underscore c.

(** [toUpperCase] on one ASCII character. *)
Definition toUpper (c : ascii) : ascii :=
  if is_lower c then ascii_of_N (code c - 32) else c.

End Char.

Module Str.

(** [String.prototype.toUpperCase], on the ASCII range (the only range the
    transformer ever hands to it: a delimiter followed by an ASCII letter). *)
Fixpoint toUpperCase (s : string) : string :=
  match s with
  | EmptyString => EmptyString
  | String c rest => String (Char.toUpper c) (toUpperCase rest)
  end.

(** [s.replace(c, '')] with a one-character string pattern: only the first
    occurrence is removed. *)
Fixpoint remove_first (c : ascii) (s : string) : string :=
  match s with
  | EmptyString => EmptyString
  | String x rest => if Ascii.eqb x c then rest else String x (remove_first c rest)
  end.

(** Some character of [s] satisfies [p]. *)
Fixpoint existsb (p : ascii -> bool) (s : string) : bool :=
  match s with
  | EmptyString => false
  | String c rest => p c || existsb p rest
  end.

Fixpoint forallb (p : ascii -> bool) (s : string) : bool :=
  match s with
  | EmptyString => true
  | String c rest => p c && forallb p rest
  end.

(** A byte [10xxxxxx], which continues a character in UTF-8. *)
Definition is_continuation (c : ascii) : bool :=
  (128 <=? Char.code c)%N && (Char.code c <? 192)%N.

(** The number of characters (code points) of the string. *)
Fixpoint code_points (s : string) : nat :=
  match s with
  | EmptyString => 0
  | String c rest =>
      if is_continuation c then code_points rest else S (code_points rest)
  end.

(** The number of variation selectors U+FE0E and U+FE0F in the string
    (bytes [EF B8 8E] and [EF B8 8F]). *)
Fixpoint variation_selectors (s : string) : nat :=
  match s with
  | String a (String b (String c _ as tl2) as tl) =>
      if (Char.code a =? 239)%N && (Char.code b =? 184)%N
         && ((Char.code c =? 142)%N || (Char.code c =? 143)%N)
      then S (variation_selectors tl2) else variation_selectors tl
  | _ => 0
  end.

End Str.

(** ** The key rewriting of [toCamelCaseParser]

    [key.replace(/([-_][a-z])/gi, $1 => $1.toUpperCase().replace('-', '').replace('_', ''))] *)

(** The replacer function, applied to one match [$1]. *)
Definition replacer (m : string) : string :=
  Str.remove_first "_" (Str.remove_first "-" (Str.toUpperCase m)).

(** The global replace: matches are found from left to right and do not
    overlap; a position where the pattern does not match keeps its
    character. *)
Fixpoint camelCaseKey (key : string) : string :=
  match key with
  | String d (String c rest as tl) =>
      if Char.is_delim d && Char.is_letter c
      then replacer (String d (String c EmptyString)) +:+ camelCaseKey rest
      else String d (camelCaseKey tl)
  | _ => key
  end.

(** The pattern matches somewhere in [key]. *)
Fixpoint has_match (key : string) : bool :=
  match key with
  | String d (String c _ as tl) => (Char.is_delim d && Char.is_letter c) || has_match tl
  | _ => false
  end.

(** ** JSON-like values

    The value handed to [toCamelCaseParser] is the parsed body of an upstream
    response.  A number is a leaf the code never inspects; it is carried as a
    rational (every finite double is one).  An object is the sequence of its
    own properties in the order [Object.keys] enumerates them: integer-like
    keys first, then the other keys in the order they were added.  A key of
    digits holds no delimiter, so the rewriting leaves it as it is, and a key
    that is rewritten holds an uppercase letter afterwards; the keys of the
    output therefore come in the order in which the reduction first assigns
    them. *)

Unset Elimination Schemes.
Inductive json : Type :=
| JNull
| JBool (b : bool)
| JNum (n : Q)
| JStr (s : string)
| JArr (items : list json)
| JObj (props : list (string * json)).
Set Elimination Schemes.

Module Obj.

(** [Object.keys(o)] *)
Definition keys {A} (o : list (string * A)) : list string := map fst o.

(** The own property [k] of [o]: its value when [o] has one ([o[k]] then
    reads it), nothing otherwise.  Properties inherited from
    [Object.prototype] are not looked at. *)
Fixpoint get {A} (k : string) (o : list (string * A)) : option A :=
  match o with
  | [] => None
  | (k', v) :: rest => if String.eqb k k' then Some v else get k rest
  end.

(** [o[k] = v]: an existing property keeps its place and takes the new value,
    a new property is added after the others. *)
Fixpoint set {A} (k : string) (v : A) (o : list (string * A)) : list (string * A) :=
  match o with
  | [] => [(k, v)]
  | (k', v') :: rest =>
      if String.eqb k k' then (k', v) :: rest else (k', v') :: set k v rest
  end.

End Obj.

(** ** [toCamelCaseParser]

    [Object.keys(param).reduce((result, key) => ..., {})] visits the
    properties of [param] in order; [param[key]] is the value stored with
    [key], so the reduction is a left fold over the properties. *)
Fixpoint toCamelCaseParser (param : json) : json :=
  match param with
  | JArr items => JArr (map toCamelCaseParser items)
  | JObj props =>
      JObj (fold_left
              (fun result kv =>
                 let camelCaseKey := camelCaseKey (fst kv) in
                 Obj.set camelCaseKey (toCamelCaseParser (snd kv)) result)
              props [])
  | _ => param
  end.

(** The reducer of [toCamelCaseParser], named for the statements below. *)
Definition reducer (result : list (string * json)) (kv : string * json) : list (string * json) :=
  Obj.set (camelCaseKey (fst kv)) (toCamelCaseParser (snd kv)) result.

(** *** Predicates on JSON values used in the statements *)

(** No two keys of one object are rewritten to the same key, at every level. *)
Fixpoint collision_free (v : json) : bool :=
  match v with
  | JArr items => forallb collision_free items
  | JObj props =>
      bool_decide (NoDup (map camelCaseKey (Obj.keys props)))
      && forallb (fun kv => collision_free (snd kv)) props
  | _ => true
  end.

(** Every key, at every level, is already camel-cased: the pattern matches
    nowhere in it. *)
Fixpoint keys_camel_cased (v : json) : bool :=
  match v with
  | JArr items => forallb keys_camel_cased items
  | JObj props =>
      forallb (fun kv => negb (has_match (fst kv)) && keys_camel_cased (snd kv)) props
  | _ => true
  end.

(** Structural isomorphism up to key spelling: equal leaves, arrays of equal
    length with isomorphic elements in the same positions, objects with the
    same number of properties whose values are isomorphic position by
    position; [spell] relates the key of the input to the key of the output. *)
Unset Elimination Schemes.
Inductive isomorphic (spell : string -> string -> Prop) : json -> json -> Prop :=
| iso_null : isomorphic spell JNull JNull
| iso_bool b : isomorphic spell (JBool b) (JBool b)
| iso_num n : isomorphic spell (JNum n) (JNum n)
| iso_str s : isomorphic spell (JStr s) (JStr s)
| iso_arr xs ys :
    Forall2 (isomorphic spell) xs ys ->
    isomorphic spell (JArr xs) (JArr ys)
| iso_obj ps qs :
    Forall2 (fun p q => spell (fst p) (fst q) /\ isomorphic spell (snd p) (snd q)) ps qs ->
    isomorphic spell (JObj ps) (JObj qs).
Set Elimination Schemes.

(** The spelling relation of the transformer. *)
Definition respelled (k k' : string) : Prop := k' = camelCaseKey k.

(** Number of own properties of an object (0 for anything else). *)
Definition key_count (v : json) : nat :=
  match v with JObj props => length props | _ => 0 end.

(** Every object, at every level, has pairwise distinct keys (as every
    JavaScript object does). *)
Fixpoint unique_keys (v : json) : bool :=
  match v with
  | JArr items => forallb unique_keys items
  | JObj props =>
      bool_decide (NoDup (Obj.keys props))
      && forallb (fun kv => unique_keys (snd kv)) props
  | _ => true
  end.

(** The properties of [props] whose key is rewritten to [c], in visitation
    order, and the last of them. *)
Definition rewritten_to (c : string) (props : list (string * json)) : list (string * json) :=
  filter (fun kv => camelCaseKey (fst kv) = c) props.

Definition last_rewritten_to (c : string) (props : list (string * json)) : option (string * json) :=
  last (rewritten_to c props).

(** How many times [k] occurs in a list of keys. *)
Definition occurrences (k : string) (ks : list string) : nat :=
  length (filter (fun k' => k' = k) ks).

(** Induction over JSON values: the elements of an array and the values of
    an object satisfy the property. *)
Definition json_ind (P : json -> Prop)
    (Hnull : P JNull)
    (Hbool : forall b, P (JBool b))
    (Hnum : forall n, P (JNum n))
    (Hstr : forall s, P (JStr s))
    (Harr : forall items, Forall P items -> P (JArr items))
    (Hobj : forall props, Forall (fun kv => P (snd kv)) props -> P (JObj props)) :
  forall v, P v :=
  fix go (v : json) : P v :=
    match v with
    | JNull => Hnull
    | JBool b => Hbool b
    | JNum n => Hnum n
    | JStr s => Hstr s
    | JArr items =>
        Harr items
          ((fix all (l : list json) : Forall P l :=
              match l with
              | [] => @List.Forall_nil _ P
              | x :: l' => @List.Forall_cons _ P x l' (go x) (all l')
              end) items)
    | JObj props =>
        Hobj props
          ((fix all (l : list (string * json)) : Forall (fun kv => P (snd kv)) l :=
              match l with
              | [] => @List.Forall_nil _ (fun kv => P (snd kv))
              | kv :: l' => @List.Forall_cons _ (fun kv => P (snd kv)) kv l' (go (snd kv)) (all l')
              end) props)
    end.

(** What one property of the input contributes to the output object. *)
Definition rewrite_prop (kv : string * json) : string * json :=
  (camelCaseKey (fst kv), toCamelCaseParser (snd kv)).

(** An object with two keys that are rewritten to the same key. *)
Definition colliding : json :=
  JObj [("a_b", JNum 1); ("a-b", JNum 2)].

(** The example object of the specification and its expected image. *)
Definition example_user : json :=
  JObj [("site_admin", JBool true); ("avatar-url", JStr "x");
        ("nested_obj", JObj [("gravatar_id", JStr "y")])].

Definition example_user_camel : json :=
  JObj [("siteAdmin", JBool true); ("avatarUrl", JStr "x");
        ("nestedObj", JObj [("gravatarId", JStr "y")])].

(** *** The key rewriting in the words of the specification

    "Replace every occurrence of a hyphen or underscore immediately followed
    by a single letter with that letter uppercased, dropping the delimiter." *)
Fixpoint spec_rewrite_key (key : string) : string :=
  match key with
  | String d (String c rest as tl) =>
      if Char.is_delim d && Char.is_letter c
      then String (Char.toUpper c) (spec_rewrite_key rest)
      else String d (spec_rewrite_key tl)
  | _ => key
  end.

(** Scalars: string, number, boolean, null. *)
Definition is_scalar (v : json) : bool :=
  match v with
  | JArr _ | JObj _ => false
  | _ => true
  end.

(** ** Requests

    A value stored in [req.query] or [req.params] for a parameter that the
    URL gives once, as [name=text]: the string found there, or the number a
    sanitizer has put in its place.  A property that is not there reads as
    [undefined], modelled by [None].  A parameter that is repeated or written
    with brackets, which the query parser turns into an array or an object,
    is outside this model: the statements below are about requests whose
    parameters are plain strings. *)
Inductive value : Type :=
| VStr (s : string)
| VNum (n : Z).

Inductive location : Type := Query | Params.

Definition location_name (l : location) : string :=
  match l with Query => "query" | Params => "params" end.

Record request : Type := {
  req_query : gmap string value;
  req_params : gmap string value;
  (** [req.accepts(type)]: the outcome of content negotiation on [Accept] *)
  req_accepts : string -> bool
}.

(** [_.get(req[location], path)] *)
Definition get_field (req : request) (l : location) (path : string) : option value :=
  match l with
  | Query => req_query req !! path
  | Params => req_params req !! path
  end.

(** [_.set(req[location], path, v)]; a property set to [undefined] reads
    like a missing one. *)
Definition set_field (req : request) (l : location) (path : string) (v : option value) : request :=
  let put (m : gmap string value) :=
    match v with Some x => <[path := x]> m | None => delete path m end in
  match l with
  | Query => {| req_query := put (req_query req); req_params := req_params req;
                req_accepts := req_accepts req |}
  | Params => {| req_query := req_query req; req_params := put (req_params req);
                 req_accepts := req_accepts req |}
  end.

Definition value_eqb (a b : option value) : bool :=
  match a, b with
  | None, None => true
  | Some (VStr s), Some (VStr t) => String.eqb s t
  | Some (VNum n), Some (VNum m) => Z.eqb n m
  | _, _ => false
  end.

(** [v === undefined] *)
Definition is_undefined (v : option value) : bool :=
  match v with None => true | Some _ => false end.

(** JavaScript truthiness, as in [if (search)]. *)
Definition truthy (v : option value) : bool :=
  match v with
  | None => false
  | Some (VStr s) => negb (String.eqb s "")
  | Some (VNum n) => negb (Z.eqb n 0)
  end.

(** [String(v)] on a defined value, as in a template literal. *)
Definition js_string (v : value) : string :=
  match v with
  | VStr s => s
  | VNum n => pretty n
  end.

(** [`${v}`]: the string a template literal puts in place of [v]. *)
Definition template (v : option value) : string :=
  match v with
  | Some x => js_string x
  | None => "undefined"
  end.

(** ** validator.js: the checks the routes use, on strings *)

Module Validator.

(** The decimal number written by a non-empty string of digits. *)
Fixpoint digits_value (acc : Z) (s : string) : Z :=
  match s with
  | EmptyString => acc
  | String c rest => digits_value (10 * acc + Z.of_N (Char.code c - 48)) rest
  end.

Definition digits (s : string) : option Z :=
  match s with
  | EmptyString => None
  | _ => if Str.forallb Char.is_digit s then Some (digits_value 0 s) else None
  end.

(** The integer written by [str] when it matches [/^[-+]?[0-9]+$/], the
    pattern [isInt] tests when leading zeroes are not forbidden. *)
Definition int_of (str : string) : option Z :=
  match str with
  | String "-" rest => Z.opp <$> digits rest
  | String "+" rest => digits rest
  | _ => digits str
  end.

(** [isInt(str, { min, max })]: the pattern matches and the number lies
    within the bounds that are given. *)
Definition isInt (min max : option Z) (str : string) : bool :=
  match int_of str with
  | Some n =>
      match min with Some lo => (lo <=? n)%Z | None => true end
      && match max with Some hi => (n <=? hi)%Z | None => true end
  | None => false
  end.

(** The length [isLength] compares: [str.length] less the surrogate pairs
    and the variation selectors of [str], that is, its characters other than
    variation selectors. *)
Definition length_of (str : string) : nat :=
  Str.code_points str - Str.variation_selectors str.

(** [isLength(str, { min })] *)
Definition isLength (min : nat) (str : string) : bool :=
  Nat.leb min (length_of str).

(** [isIn(str, values)] *)
Definition isIn (values : list string) (str : string) : bool :=
  existsb (String.eqb str) values.

End Validator.

(** ** The username pattern

    [github-username-regex] exports
    [/^[a-z\d](?:[a-z\d]|-(?=[a-z\d])){0,38}$/i]. *)

(** [(?:[a-z\d]|-(?=[a-z\d]))*$]: every iteration consumes one character,
    either an alphanumeric one or a hyphen that an alphanumeric one follows. *)
Fixpoint username_tail (s : string) : bool :=
  match s with
  | EmptyString => true
  | String c rest =>
      if Char.is_alnum c then username_tail rest
      else if Char.is_hyphen c then
        match rest with
        | String c' _ => Char.is_alnum c' && username_tail rest
        | EmptyString => false
        end
      else false
  end.

(** [githubUsernameRegex.test(s)] *)
Definition githubUsernameRegex (s : string) : bool :=
  match s with
  | EmptyString => false
  | String c rest =>
      Char.is_alnum c && Nat.leb (String.length rest) 38 && username_tail rest
  end.

(** The username rule in the words of the specification: alphanumeric
    characters and single hyphens, no leading, trailing or double hyphen,
    1 to 39 characters. *)
Fixpoint no_double_hyphen (s : string) : bool :=
  match s with
  | String c (String c' _ as tl) =>
      negb (Char.is_hyphen c && Char.is_hyphen c') && no_double_hyphen tl
  | _ => true
  end.

Fixpoint last_char (s : string) : option ascii :=
  match s with
  | EmptyString => None
  | String c EmptyString => Some c
  | String _ rest => last_char rest
  end.

Definition first_char (s : string) : option ascii :=
  match s with
  | EmptyString => None
  | String c _ => Some c
  end.

Definition not_hyphen (c : option ascii) : bool :=
  match c with Some x => negb (Char.is_hyphen x) | None => true end.

Definition username_chars (s : string) : bool :=
  Str.forallb (fun c => Char.is_alnum c || Char.is_hyphen c) s.

Definition valid_username_spec (s : string) : bool :=
  username_chars s
  && not_hyphen (first_char s)
  && not_hyphen (last_char s)
  && no_double_hyphen s
  && Nat.leb 1 (String.length s) && Nat.leb (String.length s) 39.

(** ** express-validator (6.x): validation chains

    A chain is built by method calls ([query('perPage').optional()...]) and
    run as a middleware.  The builder collects an ordered stack of context
    items; [optional()] is not an item but a flag of the whole chain. *)

(** [toString(value)], the string a standard validator is given. *)
Definition toString (v : option value) : string :=
  match v with
  | None => ""
  | Some x => js_string x
  end.

Inductive validator : Type :=
(** standard validators, applied to [toString(value)] *)
| IsInt (min max : option Z)
| IsLength (min : nat)
| IsIn (values : list string)
| Matches (pattern : string -> bool)
(** custom validators, applied to the value itself *)
| IsString
| Exists.

Definition validator_holds (v : validator) (x : option value) : bool :=
  match v with
  | IsInt min max => Validator.isInt min max (toString x)
  | IsLength min => Validator.isLength min (toString x)
  | IsIn values => Validator.isIn values (toString x)
  | Matches pattern => pattern (toString x)
  | IsString => match x with Some (VStr _) => true | _ => false end
  | Exists => match x with Some _ => true | None => false end
  end.

Unset Elimination Schemes.
Inductive context_item : Type :=
| Validation (v : validator) (negated : bool) (message : option string)
(** [.default(d)]: a sanitizer *)
| Default (d : value)
(** [.if(chain)]: the field, location, optional flag and stack of the
    condition chain *)
| Condition (field : string) (loc : location) (opt : bool) (stack : list context_item).
Set Elimination Schemes.

Record chain : Type := {
  c_field : string;
  c_location : location;
  c_optional : bool;
  c_stack : list context_item;
  (** set by [.not()], consumed by the next validator *)
  c_negateNext : bool
}.

(** *** The builder methods *)

Definition check (l : location) (field : string) : chain :=
  {| c_field := field; c_location := l; c_optional := false;
     c_stack := []; c_negateNext := false |}.

Definition query : string -> chain := check Query.
Definition param : string -> chain := check Params.

Definition addItem (it : context_item) (c : chain) : chain :=
  {| c_field := c_field c; c_location := c_location c; c_optional := c_optional c;
     c_stack := c_stack c ++ [it]; c_negateNext := false |}.

Definition addValidator (v : validator) (c : chain) : chain :=
  addItem (Validation v (c_negateNext c) None) c.

Definition optional (c : chain) : chain :=
  {| c_field := c_field c; c_location := c_location c; c_optional := true;
     c_stack := c_stack c; c_negateNext := c_negateNext c |}.

Definition not_ (c : chain) : chain :=
  {| c_field := c_field c; c_location := c_location c; c_optional := c_optional c;
     c_stack := c_stack c; c_negateNext := true |}.

Definition default_ (d : value) : chain -> chain := addItem (Default d).
Definition isInt (min max : option Z) : chain -> chain := addValidator (IsInt min max).
Definition isLength (min : nat) : chain -> chain := addValidator (IsLength min).
Definition isIn (values : list string) : chain -> chain := addValidator (IsIn values).
Definition matches (pattern : string -> bool) : chain -> chain := addValidator (Matches pattern).
Definition isString : chain -> chain := addValidator IsString.
Definition exists_ : chain -> chain := addValidator Exists.

Definition if_ (condition : chain) : chain -> chain :=
  addItem (Condition (c_field condition) (c_location condition)
                     (c_optional condition) (c_stack condition)).

(** [.withMessage(m)] sets the message of the validator added last. *)
Fixpoint set_message (m : string) (rev_stack : list context_item) : list context_item :=
  match rev_stack with
  | [] => []
  | Validation v negated _ :: rest => Validation v negated (Some m) :: rest
  | it :: rest => it :: set_message m rest
  end.

Definition withMessage (m : string) (c : chain) : chain :=
  {| c_field := c_field c; c_location := c_location c; c_optional := c_optional c;
     c_stack := rev (set_message m (rev (c_stack c))); c_negateNext := c_negateNext c |}.

(** Method call syntax: [c |> m] is [c.m]. *)
Notation "c |> m" := (m c) (at level 45, left associativity, only parsing).

(** *** Running a chain *)

(** One entry of [errors.array()]. *)
Record validation_error : Type := {
  e_value : option value;
  e_msg : string;
  e_param : string;
  e_location : string
}.

(** The state of a run: the request (sanitizers write to it), the current
    value of the field instance, whether a condition has halted the
    instance, and the errors of the context so far. *)
Record run_state : Type := {
  rs_req : request;
  rs_value : option value;
  rs_halted : bool;
  rs_errors : list validation_error
}.

Definition start (req : request) (l : location) (field : string) : run_state :=
  {| rs_req := req; rs_value := get_field req l field; rs_halted := false; rs_errors := [] |}.

(** [context.addError(message, value, meta)] *)
Definition addError (message : option string) (l : location) (field : string)
    (st : run_state) : run_state :=
  {| rs_req := rs_req st; rs_value := rs_value st; rs_halted := rs_halted st;
     rs_errors := rs_errors st ++
       [{| e_value := rs_value st;
           e_msg := match message with Some m => m | None => "Invalid value" end;
           e_param := field;
           e_location := location_name l |}] |}.

Definition halt (st : run_state) : run_state :=
  {| rs_req := rs_req st; rs_value := rs_value st; rs_halted := true;
     rs_errors := rs_errors st |}.

(** A sanitizer replaces the value of the instance; unless the run is a dry
    run, a changed value is written back to the request. *)
Definition sanitize (dryRun : bool) (l : location) (field : string)
    (new : option value) (st : run_state) : run_state :=
  {| rs_req := if negb dryRun && negb (value_eqb (get_field (rs_req st) l field) new)
               then set_field (rs_req st) l field new else rs_req st;
     rs_value := new; rs_halted := rs_halted st; rs_errors := rs_errors st |}.

(** The loop of [ContextRunnerImpl.run] visits the items of the stack in
    order; at each item it takes the instances from
    [context.getData({ requiredOnly: true })], which leaves out an instance
    whose value is [undefined] when the chain is optional, and passes over an
    instance that a condition has halted. *)
Definition visit (opt : bool) (run : run_state -> run_state) (st : run_state) : run_state :=
  if opt && is_undefined (rs_value st) then st
  else if rs_halted st then st
  else run st.

(** One context item, run on the instance of [field] in location [l].
    - A validator adds an error when its check fails (or, negated, when it
      holds).
    - [default(d)] replaces [undefined], [null], [NaN] and [''] by [d].
    - A condition runs its chain as a dry run on the request and halts the
      instance when that run reports an error. *)
Fixpoint run_item (it : context_item) (dryRun : bool) (l : location) (field : string)
    (st : run_state) : run_state :=
  match it with
  | Validation v negated message =>
      if xorb negated (validator_holds v (rs_value st)) then st
      else addError message l field st
  | Default d =>
      match rs_value st with
      | None | Some (VStr EmptyString) => sanitize dryRun l field (Some d) st
      | Some _ => st
      end
  | Condition cfield cloc copt cstack =>
      let result :=
        fold_left (fun st' it' => visit copt (run_item it' true cloc cfield) st')
                  cstack (start (rs_req st) cloc cfield) in
      match rs_errors result with
      | [] => st
      | _ :: _ => halt st
      end
  end.

Definition run_stack (opt dryRun : bool) (l : location) (field : string)
    (stack : list context_item) (st : run_state) : run_state :=
  fold_left (fun st' it => visit opt (run_item it dryRun l field) st') stack st.

(** [chain.run(req)]: the request as the sanitizers leave it, and the errors
    of the context. *)
Definition run (c : chain) (req : request) : request * list validation_error :=
  let st := run_stack (c_optional c) false (c_location c) (c_field c) (c_stack c)
                      (start req (c_location c) (c_field c)) in
  (rs_req st, rs_errors st).

(** The chains of a route run one after the other as middlewares, each on
    the request the previous one left; [validationResult(req).array()] lists
    the errors of all their contexts in that order. *)
Fixpoint run_all (chains : list chain) (req : request) : request * list validation_error :=
  match chains with
  | [] => (req, [])
  | c :: rest =>
      let '(req1, errors1) := run c req in
      let '(req2, errors2) := run_all rest req1 in
      (req2, errors1 ++ errors2)
  end.

Definition validationResult (chains : list chain) (req : request) : list validation_error :=
  snd (run_all chains req).

(** ** Express responses *)

Inductive body : Type :=
| NoBody
| JsonBody (j : json)
(** the short notice [res.redirect] writes, naming the target *)
| RedirectNotice (url : string)
(** a string, sent as [text/html] *)
| HtmlBody (s : string)
(** the text the status table holds for the number [n], sent as
    [text/plain]; nothing when the table has no text for [n] or the status
    allows no body *)
| StatusMessage (n : Q).

Record response : Type := {
  statusCode : Z;
  header_location : option string;
  res_body : body
}.

(** A response nothing has been written to: the status defaults to 200. *)
Definition res : response :=
  {| statusCode := 200; header_location := None; res_body := NoBody |}.

(** [res.status(code)] *)
Definition status (code : Z) (r : response) : response :=
  {| statusCode := code; header_location := header_location r; res_body := res_body r |}.

(** [res.json(obj)]: the JSON text of [obj] is the body, the status is left
    as it is. *)
Definition json_ (j : json) (r : response) : response :=
  {| statusCode := statusCode r; header_location := header_location r;
     res_body := JsonBody j |}.

(** [n | 0], the 32-bit integer a number is cut down to when the head of the
    response is written. *)
Definition to_int32 (n : Q) : Z :=
  ((Z.quot (Qnum n) (Z.pos (Qden n)) + 2 ^ 31) mod 2 ^ 32 - 2 ^ 31)%Z.

(** [res.send(chunk)] (Express 4), by the type of [chunk]:
    - an object, an array or a boolean goes to [res.json];
    - a string is the body, as [text/html];
    - [null] gives an empty body;
    - a number is taken for the status, and the body is the text of that
      status. *)
Definition send (chunk : json) (r : response) : response :=
  match chunk with
  | JObj _ | JArr _ | JBool _ => json_ chunk r
  | JStr s =>
      {| statusCode := statusCode r; header_location := header_location r;
         res_body := HtmlBody s |}
  | JNull =>
      {| statusCode := statusCode r; header_location := header_location r;
         res_body := NoBody |}
  | JNum n =>
      {| statusCode := to_int32 n; header_location := header_location r;
         res_body := StatusMessage n |}
  end.

(** Writing the head of a response throws unless the status lies between 100
    and 999. *)
Definition valid_status (code : Z) : bool := (100 <=? code)%Z && (code <=? 999)%Z.

(** [res.redirect(url)]: sets the [Location] header and, no status being
    given in the call, sets the status to 302. *)
Definition redirect (url : string) (r : response) : response :=
  {| statusCode := 302; header_location := Some url; res_body := RedirectNotice url |}.

(** The JSON of a request value and of [{ errors: errors.array() }].
    [JSON.stringify] leaves out a property whose value is [undefined]. *)
Definition json_of_value (v : value) : json :=
  match v with
  | VStr s => JStr s
  | VNum n => JNum (inject_Z n)
  end.

Definition json_of_error (e : validation_error) : json :=
  JObj (match e_value e with Some v => [("value", json_of_value v)] | None => [] end
        ++ [("msg", JStr (e_msg e)); ("param", JStr (e_param e));
            ("location", JStr (e_location e))]).

Definition errors_body (errors : list validation_error) : json :=
  JObj [("errors", JArr (map json_of_error errors))].

Definition error_body (message : string) : json :=
  JObj [("error", JStr message)].

(** ** Octokit requests and asynchronous handlers *)

(** [octokit.request(route, parameters)]: the parameters are the properties
    of the object literal, in order, some of them possibly [undefined]. *)
Record upstream_call : Type := {
  route : string;
  parameters : list (string * option value)
}.

(** The promise of a request resolves with a response, of which the handlers
    read [data], or rejects with an error, of which they read [status]. *)
Inductive upstream_result : Type :=
| Resolved (data : json)
| Rejected (error_status : option Z).

Definition upstream : Type := upstream_call -> upstream_result.

(** How an [async] handler ends: it returns, having written the response, or
    its promise rejects with the error of a request it did not catch. *)
Inductive outcome (A : Type) : Type :=
| Returned (a : A)
| Threw (error_status : option Z).
Arguments Returned {A} a.
Arguments Threw {A} error_status.

(** A handler computation reads the upstream service and logs each request
    it issues. *)
Definition handler (A : Type) : Type :=
  upstream -> list upstream_call -> outcome A * list upstream_call.

Definition ret {A} (a : A) : handler A :=
  fun _ log => (Returned a, log).

Definition bind {A B} (m : handler A) (k : A -> handler B) : handler B :=
  fun up log =>
    match m up log with
    | (Returned a, log') => k a up log'
    | (Threw s, log') => (Threw s, log')
    end.

(** [throw error], with [error.status] *)
Definition throw {A} (error_status : option Z) : handler A :=
  fun _ log => (Threw error_status, log).

(** [res.send(chunk)] as a step of a handler: when the status it leaves is
    not a valid one, writing the response throws an error (which carries no
    [status]). *)
Definition res_send (chunk : json) (r : response) : handler response :=
  if valid_status (statusCode (send chunk r)) then ret (send chunk r) else throw None.

(** [await octokit.request(route, parameters)], yielding [response.data] *)
Definition octokit_request (r : string) (ps : list (string * option value)) : handler json :=
  fun up log =>
    let call := {| route := r; parameters := ps |} in
    (match up call with
     | Resolved data => Returned data
     | Rejected s => Threw s
     end, log ++ [call]).

(** [try { m } catch (error) { h(error.status) }] *)
Definition try_catch {A} (m : handler A) (h : option Z -> handler A) : handler A :=
  fun up log =>
    match m up log with
    | (Returned a, log') => (Returned a, log')
    | (Threw s, log') => h s up log'
    end.

#[global] Instance handler_ret : MRet handler := @ret.
#[global] Instance handler_bind : MBind handler := fun A B k m => bind m k.

(** Running a handler from an empty log. *)
Definition handle {A} (h : handler A) (up : upstream) : outcome A * list upstream_call :=
  h up [].

(** ** The routes of [routes/index.js] *)

(** The validators of [router.get('/users', ...)].  [optional()] marks the
    whole chain, wherever it stands in it: while the value is [undefined]
    every item is passed over, a sanitizer such as [default(30)] included. *)
Definition perPage_rule : chain :=
  query "perPage"
    |> optional
    |> default_ (VNum 30)
    |> isInt (Some 1%Z) (Some 100%Z)
    |> withMessage "perPage must be an integer between 1 and 100".

Definition since_rule : chain :=
  query "since"
    |> optional
    |> if_ (query "search" |> not_ |> exists_)
    |> isInt (Some 0%Z) None
    |> withMessage "since must be an integer greater than 0".

Definition search_rule : chain :=
  query "search"
    |> optional
    |> isString
    |> isLength 3
    |> withMessage "search must be a string with at least 3 characters".

Definition sort_rule : chain :=
  query "sort"
    |> if_ (query "search" |> exists_)
    |> optional
    |> isIn ["followers"; "repositories"; "joined"]
    |> withMessage "sort must be one of the following values: followers, repositories, joined".

Definition order_rule : chain :=
  query "order"
    |> if_ (query "search" |> exists_)
    |> optional
    |> isIn ["asc"; "desc"]
    |> withMessage "order must be one of the following values: asc, desc".

Definition page_rule : chain :=
  query "page"
    |> if_ (query "search" |> exists_)
    |> optional
    |> isInt (Some 1%Z) None
    |> withMessage "page must be an integer greater than 0".

Definition users_validators : list chain :=
  [perPage_rule; since_rule; search_rule; sort_rule; order_rule; page_rule].

(** The handler of [router.get('/users', ...)], after its validators. *)
Definition get_users (req0 : request) : handler response :=
  let '(req, errors) := run_all users_validators req0 in
  match errors with
  | _ :: _ => ret (res |> status 400 |> json_ (errors_body errors))
  | [] =>
      let perPage := req_query req !! "perPage" in
      let since := req_query req !! "since" in
      let search := req_query req !! "search" in
      let sort := req_query req !! "sort" in
      let order := req_query req !! "order" in
      let page := req_query req !! "page" in
      if truthy search then
        data ← octokit_request "GET /search/users"
                  [("sort", sort); ("page", page); ("order", order);
                   ("q", Some (VStr (template search +:+ " in:login name email type:user")));
                   ("per_page", perPage)];
        res |> res_send (toCamelCaseParser data)
      else
        data ← octokit_request "GET /users"
                  [("since", since); ("per_page", perPage)];
        res |> res_send (toCamelCaseParser data)
  end.

(** [error.status === code] *)
Definition status_is (error_status : option Z) (code : Z) : bool :=
  match error_status with
  | Some s => Z.eqb s code
  | None => false
  end.

(** The validators of [router.get('/users/:username', ...)]. *)
Definition username_rule : chain :=
  param "username"
    |> isString
    |> matches githubUsernameRegex
    |> withMessage "Username must be a valid github username".

Definition user_validators : list chain := [username_rule].

(** The handler of [router.get('/users/:username', ...)]. *)
Definition get_user (req0 : request) : handler response :=
  let '(req, errors) := run_all user_validators req0 in
  match errors with
  | _ :: _ => ret (res |> status 400 |> json_ (errors_body errors))
  | [] =>
      try_catch
        (data ← octokit_request "GET /users/{username}"
                   [("username", req_params req !! "username")];
         res |> res_send (toCamelCaseParser data))
        (fun error_status =>
           if status_is error_status 404
           then ret (res |> status 404 |> send (error_body "User not found"))
           else ret (res |> status 500 |> send (error_body "Something went wrong")))
  end.

(** ** The fallback middleware of [index.js]

    It is the last middleware of the application: a request reaches it when
    no route or earlier middleware has answered. *)
Definition not_found (req : request) : response :=
  let r := res |> status 404 in
  if req_accepts req "html" then r |> redirect "/docs"
  else r |> send (error_body "Resource isn't found").

(** *** Shorthands for the statements about validation *)

Definition rule_error (l : location) (field msg : string) (v : option value) : validation_error :=
  {| e_value := v; e_msg := msg; e_param := field; e_location := location_name l |}.

(** The errors of one check [ok] on a field that is only checked when it is
    there. *)
Definition checked (l : location) (field msg : string) (ok : string -> bool)
    (v : option value) : list validation_error :=
  match v with
  | None => []
  | Some x => if ok (js_string x) then [] else [rule_error l field msg v]
  end.

(** A request with the given query parameters (and path parameters). *)
Definition request_of (q p : list (string * value)) : request :=
  {| req_query := list_to_map q; req_params := list_to_map p;
     req_accepts := fun _ => false |}.

(** One upstream request whose data, camel-cased, is handed to [res.send]. *)
Definition proxied (r : string) (ps : list (string * option value)) (up : upstream)
  : outcome response * list upstream_call :=
  let call := {| route := r; parameters := ps |} in
  (match up call with
   | Resolved data =>
       if valid_status (statusCode (res |> send (toCamelCaseParser data)))
       then Returned (res |> send (toCamelCaseParser data))
       else Threw None
   | Rejected s => Threw s
   end, [call]).

(** The value of [perPage] after the validators have run. *)
Definition sanitized_perPage (v : option value) : option value :=
  match v with
  | Some (VStr EmptyString) => Some (VNum 30)
  | _ => v
  end.

(** The answer to a request that fails validation. *)
Definition bad_request (errors : list validation_error) : response :=
  res |> status 400 |> json_ (errors_body errors).

(** Requests used as examples. *)
Definition html_request : request :=
  {| req_query := ∅; req_params := ∅; req_accepts := fun t => String.eqb t "html" |}.

Definition json_request : request :=
  {| req_query := ∅; req_params := ∅; req_accepts := fun _ => false |}.

(** The upstream request for one user. *)
Definition get_user_call (u : string) : upstream_call :=
  {| route := "GET /users/{username}"; parameters := [("username", Some (VStr u))] |}.

(** ** Further notions on keys *)

(** The number of matches the global replace finds in [key]
    ([key.match(/([-_][a-z])/gi).length], 0 when there is none). *)
Fixpoint matches_in (key : string) : nat :=
  match key with
  | String d (String c rest as tl) =>
      if Char.is_delim d && Char.is_letter c then S (matches_in rest) else matches_in tl
  | _ => 0
  end.

(** A delimiter immediately followed by a lowercase letter occurs in [key]. *)
Fixpoint has_lower_match (key : string) : bool :=
  match key with
  | String d (String c _ as tl) => (Char.is_delim d && Char.is_lower c) || has_lower_match tl
  | _ => false
  end.

(** [key] without its delimiters. *)
Fixpoint without_delims (key : string) : string :=
  match key with
  | EmptyString => EmptyString
  | String c rest =>
      if Char.is_delim c then without_delims rest else String c (without_delims rest)
  end.

(** No key, at any level, holds a delimiter followed by a lowercase letter. *)
Fixpoint no_lower_match_keys (v : json) : bool :=
  match v with
  | JArr items => forallb no_lower_match_keys items
  | JObj props =>
      forallb (fun kv => negb (has_lower_match (fst kv)) && no_lower_match_keys (snd kv)) props
  | _ => true
  end.

(** ** Acceptance of a users request, rule by rule *)

(** A parameter that is checked only when it is there. *)
Definition passes (ok : string -> bool) (v : option value) : bool :=
  match v with
  | None => true
  | Some x => ok (js_string x)
  end.

Definition users_request_ok (req : request) : bool :=
  (value_eqb (get_field req Query "perPage") (Some (VStr ""))
   || passes (Validator.isInt (Some 1%Z) (Some 100%Z)) (get_field req Query "perPage"))
  && match get_field req Query "search" with
     | None => passes (Validator.isInt (Some 0%Z) None) (get_field req Query "since")
     | Some (VStr s) =>
         Validator.isLength 3 s
         && passes (Validator.isIn ["followers"; "repositories"; "joined"])
                   (get_field req Query "sort")
         && passes (Validator.isIn ["asc"; "desc"]) (get_field req Query "order")
         && passes (Validator.isInt (Some 1%Z) None) (get_field req Query "page")
     | Some (VNum _) => false
     end.

(** What may be passed upstream under each parameter name. *)
Definition forwarded_ok (p : string * option value) : Prop :=
  let '(name, v) := p in
  if String.eqb name "per_page" then
    passes (Validator.isInt (Some 1%Z) (Some 100%Z)) v = true
  else if String.eqb name "since" then passes (Validator.isInt (Some 0%Z) None) v = true
  else if String.eqb name "sort" then
    passes (Validator.isIn ["followers"; "repositories"; "joined"]) v = true
  else if String.eqb name "order" then passes (Validator.isIn ["asc"; "desc"]) v = true
  else if String.eqb name "page" then passes (Validator.isInt (Some 1%Z) None) v = true
  else if String.eqb name "q" then
    exists s, v = Some (VStr (s +:+ " in:login name email type:user"))
              /\ Validator.isLength 3 s = true
  else False.

(** ** [config/index.js]

    [process.env] maps names to strings; [a || b] is [a] when [a] is truthy
    and [b] otherwise. *)
Definition js_or (a b : option value) : option value :=
  if truthy a then a else b.

Definition env_var (env : gmap string string) (name : string) : option value :=
  VStr <$> env !! name.

(** [process.env.SERVER_PORT || process.env.PORT || 3000] *)
Definition serverPort (env : gmap string string) : option value :=
  js_or (js_or (env_var env "SERVER_PORT") (env_var env "PORT")) (Some (VNum 3000)).

(** [cors.origin]: [process.env.CORS_ORIGIN || '*'] *)
Definition cors_origin (env : gmap string string) : option value :=
  js_or (env_var env "CORS_ORIGIN") (Some (VStr "*")).

(** [cors.methods]: [process.env.CORS_METHODS] *)
Definition cors_methods (env : gmap string string) : option value :=
  env_var env "CORS_METHODS".

(** ** The earlier users route

    The version of [routes/index.js] without search: two validators, and the
    list of users requested with [per_page] and [since]. *)
Definition since_rule_v1 : chain :=
  query "since"
    |> optional
    |> isInt (Some 0%Z) None
    |> withMessage "since must be an integer greater than 0".

Definition users_validators_v1 : list chain := [perPage_rule; since_rule_v1].

Definition get_users_v1 (req0 : request) : handler response :=
  let '(req, errors) := run_all users_validators_v1 req0 in
  match errors with
  | _ :: _ => ret (res |> status 400 |> json_ (errors_body errors))
  | [] =>
      data ← octokit_request "GET /users"
                [("per_page", req_query req !! "perPage");
                 ("since", req_query req !! "since")];
      res |> res_send (toCamelCaseParser data)
  end.

(** The upstream service answers with objects and arrays only, as the three
    GitHub operations do. *)
Definition answers_with_containers (up : upstream) : Prop :=
  forall call data, up call = Resolved data -> is_scalar data = false.

(** * Properties *)

Example camelCaseKey_site_admin : camelCaseKey "site_admin" = "siteAdmin".
Proof. reflexivity. Qed.

Example camelCaseKey_avatar_url : camelCaseKey "avatar-url" = "avatarUrl".
Proof. reflexivity. Qed.

Example camelCaseKey_double : camelCaseKey "a__b" = "a_B".
Proof. reflexivity. Qed.

Example camelCaseKey_trailing : camelCaseKey "ab_" = "ab_".
Proof. reflexivity. Qed.

Example camelCaseKey_digit : camelCaseKey "a_1-b" = "a_1B".
Proof. reflexivity. Qed.

Example toCamelCaseParser_array :
  toCamelCaseParser (JArr [JObj [("node_id", JStr "1")]; JObj [("node_id", JStr "2")]])
  = JArr [JObj [("nodeId", JStr "1")]; JObj [("nodeId", JStr "2")]].
Proof. reflexivity. Qed.

Example isInt_range :
  map (Validator.isInt (Some 1%Z) (Some 100%Z)) ["1"; "100"; "101"; "0"; "007"; "+5"; "-5"; "1.5"; "abc"; ""]
  = [true; true; false; false; true; true; false; false; false; false].
Proof. reflexivity. Qed.

Example isLength_min :
  map (Validator.isLength 3) ["ab"; "abc"; "alice"] = [false; true; true].
Proof. reflexivity. Qed.

Example githubUsernameRegex_examples :
  map githubUsernameRegex ["octo-cat"; "-octocat"; "octocat--2"; "octocat-"; "a"; ""]
  = [true; false; false; false; true; false].
Proof. reflexivity. Qed.

(** ** Characters *)

Ltac ascii_cases c := destruct c as [[] [] [] [] [] [] [] []].

Lemma is_delim_cases (d : ascii) :
  Char.is_delim d = true -> d = "-"%char \/ d = "_"%char.
Proof. ascii_cases d; vm_compute; intros H; try discriminate H; auto. Qed.

Lemma is_letter_not_delim (c : ascii) :
  Char.is_letter c = true -> Char.is_delim c = false.
Proof. ascii_cases c; vm_compute; intros H; try discriminate H; auto. Qed.

Lemma toUpper_is_upper (c : ascii) :
  Char.is_letter c = true -> Char.is_upper (Char.toUpper c) = true.
Proof. ascii_cases c; vm_compute; intros H; try discriminate H; auto. Qed.




(** ** The replacer: the delimiter is dropped, the letter is uppercased *)

Lemma replacer_match (d c : ascii) :
  Char.is_delim d = true -> Char.is_letter c = true ->
  replacer (String d (String c EmptyString)) = String (Char.toUpper c) EmptyString.
Proof.
  intros Hd Hc. destruct (is_delim_cases d Hd) as [-> | ->];
    ascii_cases c; try discriminate Hc; reflexivity.
Qed.

(** ** Key rewriting, one position at a time *)

Lemma camelCaseKey_match (d c : ascii) (rest : string) :
  Char.is_delim d = true -> Char.is_letter c = true ->
  camelCaseKey (String d (String c rest)) = String (Char.toUpper c) (camelCaseKey rest).
Proof.
  intros Hd Hc. cbn [camelCaseKey]. rewrite Hd, Hc. cbn [andb].
  rewrite (replacer_match d c Hd Hc). reflexivity.
Qed.

Lemma camelCaseKey_skip (d c : ascii) (rest : string) :
  Char.is_delim d && Char.is_letter c = false ->
  camelCaseKey (String d (String c rest)) = String d (camelCaseKey (String c rest)).
Proof. intros H. cbn [camelCaseKey]. rewrite H. reflexivity. Qed.

Lemma has_match_cons (d c : ascii) (rest : string) :
  has_match (String d (String c rest))
  = (Char.is_delim d && Char.is_letter c) || has_match (String c rest).
Proof. reflexivity. Qed.

Lemma camelCaseKey_no_match (key : string) :
  has_match key = false -> camelCaseKey key = key.
Proof.
  induction key as [|d tl IH]; [reflexivity|].
  destruct tl as [|c rest]; [reflexivity|].
  intros H. rewrite has_match_cons in H. apply orb_false_iff in H as [Hm Htl].
  rewrite camelCaseKey_skip by exact Hm. rewrite IH by exact Htl. reflexivity.
Qed.

Lemma no_delim_no_match (key : string) :
  Str.existsb Char.is_delim key = false -> has_match key = false.
Proof.
  induction key as [|d tl IH]; [reflexivity|].
  intros H. cbn [Str.existsb] in H. apply orb_false_iff in H as [Hd Htl].
  destruct tl as [|c rest]; [reflexivity|].
  rewrite has_match_cons, Hd, (IH Htl). reflexivity.
Qed.

Lemma camelCaseKey_match_changes (key : string) :
  has_match key = true -> Str.existsb Char.is_upper (camelCaseKey key) = true.
Proof.
  induction key as [|d tl IH]; [discriminate|].
  destruct tl as [|c rest]; [discriminate|].
  intros H. destruct (Char.is_delim d && Char.is_letter c) eqn:Hm.
  - apply andb_true_iff in Hm as [Hd Hc].
    rewrite camelCaseKey_match by assumption.
    cbn [Str.existsb]. rewrite toUpper_is_upper by assumption. reflexivity.
  - rewrite camelCaseKey_skip by exact Hm.
    rewrite has_match_cons, Hm in H. cbn [orb] in H.
    cbn [Str.existsb]. rewrite (IH H). apply orb_true_r.
Qed.

(** The rewritten key is never ["__proto__"], the one key whose assignment
    on a fresh object would not create an own property. *)
Lemma camelCaseKey_not_proto (key : string) : camelCaseKey key <> "__proto__".
Proof.
  intros E. destruct (has_match key) eqn:Hm.
  - apply camelCaseKey_match_changes in Hm. rewrite E in Hm. discriminate Hm.
  - rewrite camelCaseKey_no_match in E by exact Hm. subst key. discriminate Hm.
Qed.

(** ** Property assignment on objects *)

Section ObjectFacts.
Context {A : Type}.
Implicit Types (o : list (string * A)) (k c : string) (v : A).

Lemma keys_set k v o :
  Obj.keys (Obj.set k v o)
  = if decide (k ∈ Obj.keys o) then Obj.keys o else Obj.keys o ++ [k].
Proof.
  induction o as [|[k' v'] o IH]; [reflexivity|].
  cbn [Obj.set]. destruct (String.eqb_spec k k') as [->|Hne].
  - rewrite decide_True by (cbn; left). reflexivity.
  - unfold Obj.keys in *. cbn [map fst] in *. rewrite IH.
    destruct (decide (k ∈ map fst o)) as [Hin|Hnin].
    + rewrite decide_True by (right; exact Hin). reflexivity.
    + rewrite decide_False; [reflexivity|].
      intros [E|Hin]%elem_of_cons; [exact (Hne E) | exact (Hnin Hin)].
Qed.

Lemma set_fresh k v o :
  k ∉ Obj.keys o -> Obj.set k v o = o ++ [(k, v)].
Proof.
  induction o as [|[k' v'] o IH]; [reflexivity|].
  intros Hnin. cbn [Obj.set].
  destruct (String.eqb_spec k k') as [->|Hne].
  - exfalso. apply Hnin. cbn. left.
  - cbn [app]. rewrite IH; [reflexivity|].
    intros Hin. apply Hnin. cbn. right. exact Hin.
Qed.

Lemma get_set c k v o :
  Obj.get c (Obj.set k v o) = if decide (c = k) then Some v else Obj.get c o.
Proof.
  induction o as [|[k' v'] o IH].
  - cbn. destruct (String.eqb_spec c k) as [->|Hne].
    + rewrite decide_True by reflexivity. reflexivity.
    + rewrite decide_False by exact Hne. reflexivity.
  - cbn [Obj.set]. destruct (String.eqb_spec k k') as [->|Hne]; cbn [Obj.get].
    + destruct (String.eqb_spec c k') as [->|Hne'].
      * rewrite decide_True by reflexivity. reflexivity.
      * rewrite decide_False by exact Hne'. reflexivity.
    + rewrite IH. destruct (String.eqb_spec c k') as [->|Hne'].
      * rewrite decide_False by (intros E; apply Hne; symmetry; exact E). reflexivity.
      * reflexivity.
Qed.

Lemma NoDup_keys_set k v o :
  NoDup (Obj.keys o) -> NoDup (Obj.keys (Obj.set k v o)).
Proof.
  intros Hnd. rewrite keys_set. destruct (decide (k ∈ Obj.keys o)) as [Hin|Hnin].
  - exact Hnd.
  - apply NoDup_app. split; [exact Hnd|]. split.
    + intros x Hx ->%list_elem_of_singleton. exact (Hnin Hx).
    + apply NoDup_singleton.
Qed.

Lemma length_set k v o :
  length (Obj.set k v o)
  = if decide (k ∈ Obj.keys o) then length o else S (length o).
Proof.
  pose proof (keys_set k v o) as E. apply (f_equal length) in E.
  unfold Obj.keys at 1 in E. rewrite length_map in E. rewrite E.
  destruct (decide (k ∈ Obj.keys o)); unfold Obj.keys; rewrite ?length_app, length_map;
    cbn; lia.
Qed.

Lemma elem_of_set (p : string * A) k v o :
  p ∈ Obj.set k v o -> p = (k, v) \/ p ∈ o.
Proof.
  induction o as [|[k' v'] o IH]; cbn [Obj.set].
  - intros ->%list_elem_of_singleton. left. reflexivity.
  - destruct (String.eqb_spec k k') as [->|Hne].
    + intros [->|Hin]%elem_of_cons; [left; reflexivity | right; right; exact Hin].
    + intros [->|Hin]%elem_of_cons; [right; left|].
      destruct (IH Hin) as [->|Hin']; [left; reflexivity | right; right; exact Hin'].
Qed.


End ObjectFacts.

(** ** The reduction over the properties of an object *)

Lemma toCamelCaseParser_obj (props : list (string * json)) :
  toCamelCaseParser (JObj props) = JObj (fold_left reducer props []).
Proof. reflexivity. Qed.

Lemma reducer_set (acc : list (string * json)) (kv : string * json) :
  reducer acc kv = Obj.set (fst (rewrite_prop kv)) (snd (rewrite_prop kv)) acc.
Proof. reflexivity. Qed.

Lemma reduce_NoDup (props acc : list (string * json)) :
  NoDup (Obj.keys acc) -> NoDup (Obj.keys (fold_left reducer props acc)).
Proof.
  revert acc. induction props as [|p props IH]; intros acc Hnd; [exact Hnd|].
  cbn [fold_left]. apply IH. apply NoDup_keys_set, Hnd.
Qed.

Lemma reduce_keys (props acc : list (string * json)) (k : string) :
  k ∈ Obj.keys (fold_left reducer props acc)
  <-> k ∈ Obj.keys acc \/ k ∈ map camelCaseKey (Obj.keys props).
Proof.
  revert acc. induction props as [|p props IH]; intros acc; cbn [fold_left].
  - cbn. split; [auto|]. intros [H|H]; [exact H | inversion H].
  - rewrite IH. unfold reducer at 1. rewrite keys_set.
    cbn [Obj.keys map]. fold (Obj.keys props). rewrite elem_of_cons.
    destruct (decide (camelCaseKey p.1 ∈ Obj.keys acc)) as [Hin|Hnin].
    + split; [tauto|]. intros [H|[->|H]]; auto.
    + rewrite elem_of_app, list_elem_of_singleton. tauto.
Qed.

Lemma reduce_elem_of (props acc : list (string * json)) (q : string * json) :
  q ∈ fold_left reducer props acc ->
  q ∈ acc \/ exists p, p ∈ props /\ q = rewrite_prop p.
Proof.
  revert acc. induction props as [|p props IH]; intros acc; cbn [fold_left]; [auto|].
  intros [Hq|(p' & Hp' & ->)]%IH.
  - apply elem_of_set in Hq as [->|Hq]; [|left; exact Hq].
    right. exists p. split; [left | reflexivity].
  - right. exists p'. split; [right; exact Hp' | reflexivity].
Qed.

Lemma reduce_length_le (props acc : list (string * json)) :
  length (fold_left reducer props acc) <= length acc + length props.
Proof.
  revert acc. induction props as [|p props IH]; intros acc; cbn [fold_left length]; [lia|].
  specialize (IH (reducer acc p)).
  pose proof (length_set (camelCaseKey p.1) (toCamelCaseParser p.2) acc) as E.
  fold (reducer acc p) in E. destruct (decide _); lia.
Qed.

(** Without collisions the reduction appends the rewritten properties. *)
Lemma reduce_collision_free (props acc : list (string * json)) :
  NoDup (Obj.keys acc ++ map camelCaseKey (Obj.keys props)) ->
  fold_left reducer props acc = acc ++ map rewrite_prop props.
Proof.
  revert acc. induction props as [|p props IH]; intros acc Hnd; cbn [fold_left map].
  - rewrite app_nil_r. reflexivity.
  - cbn [Obj.keys map] in Hnd. fold (Obj.keys props) in Hnd.
    assert (Hfresh : camelCaseKey p.1 ∉ Obj.keys acc).
    { apply NoDup_app in Hnd as (_ & Hdisj & _). intros Hin.
      apply (Hdisj _ Hin). left. }
    rewrite (reducer_set acc p), set_fresh by exact Hfresh.
    rewrite IH.
    + rewrite <- app_assoc. reflexivity.
    + unfold Obj.keys at 1. rewrite map_app. cbn [map fst].
      rewrite <- app_assoc. exact Hnd.
Qed.

(** The value bound to a key after the reduction is the one written last. *)
Lemma last_rewritten_to_cons (c : string) (p : string * json) (props : list (string * json)) :
  last_rewritten_to c (p :: props)
  = match last_rewritten_to c props with
    | Some q => Some q
    | None => if decide (camelCaseKey p.1 = c) then Some p else None
    end.
Proof.
  unfold last_rewritten_to, rewritten_to. rewrite filter_cons.
  destruct (decide (camelCaseKey p.1 = c)).
  - rewrite last_cons. reflexivity.
  - destruct (last _); reflexivity.
Qed.

Lemma reduce_get (c : string) (props acc : list (string * json)) :
  Obj.get c (fold_left reducer props acc)
  = match last_rewritten_to c props with
    | Some p => Some (toCamelCaseParser p.2)
    | None => Obj.get c acc
    end.
Proof.
  revert acc. induction props as [|p props IH]; intros acc; [reflexivity|].
  cbn [fold_left]. rewrite IH, last_rewritten_to_cons.
  destruct (last_rewritten_to c props); [reflexivity|].
  unfold reducer. rewrite get_set.
  destruct (decide (c = camelCaseKey p.1)) as [->|Hne].
  - rewrite decide_True by reflexivity. reflexivity.
  - rewrite decide_False by (intros E; apply Hne; symmetry; exact E). reflexivity.
Qed.

Lemma last_rewritten_to_is_Some (k : string) (props : list (string * json)) :
  k ∈ Obj.keys props -> is_Some (last_rewritten_to (camelCaseKey k) props).
Proof.
  intros (p & -> & Hp)%list_elem_of_fmap.
  unfold last_rewritten_to. apply last_is_Some.
  intros E. assert (Hin : p ∈ rewritten_to (camelCaseKey p.1) props).
  { apply list_elem_of_filter. split; [reflexivity | exact Hp]. }
  rewrite E in Hin. inversion Hin.
Qed.

(** ** Lists: small facts used below *)

Lemma forallb_elem_of {A} (f : A -> bool) (l : list A) :
  forallb f l = true <-> forall x, x ∈ l -> f x = true.
Proof.
  rewrite forallb_forall. split; intros H x Hx; apply H; apply list_elem_of_In; exact Hx.
Qed.

Lemma NoDup_map_inj {A B} (f : A -> B) (l : list A) (x y : A) :
  NoDup (map f l) -> x ∈ l -> y ∈ l -> f x = f y -> x = y.
Proof.
  induction l as [|a l IH]; [intros _ H; inversion H|].
  cbn [map]. intros [Hnin Hnd]%NoDup_cons Hx Hy E.
  apply elem_of_cons in Hx as [->|Hx]; apply elem_of_cons in Hy as [->|Hy].
  - reflexivity.
  - exfalso. apply Hnin. rewrite E. apply list_elem_of_fmap. exists y. split; [reflexivity|exact Hy].
  - exfalso. apply Hnin. rewrite <- E. apply list_elem_of_fmap. exists x. split; [reflexivity|exact Hx].
  - exact (IH Hnd Hx Hy E).
Qed.

Lemma occurrences_absent (k : string) (ks : list string) :
  k ∉ ks -> occurrences k ks = 0.
Proof.
  unfold occurrences. induction ks as [|k' ks IH]; [reflexivity|].
  intros Hnin. rewrite filter_cons. destruct (decide (k' = k)) as [->|Hne].
  - exfalso. apply Hnin. left.
  - apply IH. intros Hin. apply Hnin. right. exact Hin.
Qed.

Lemma occurrences_NoDup (k : string) (ks : list string) :
  NoDup ks -> k ∈ ks -> occurrences k ks = 1.
Proof.
  induction ks as [|k' ks IH]; [intros _ H; inversion H|].
  intros [Hnin Hnd]%NoDup_cons Hin. unfold occurrences in *. rewrite filter_cons.
  destruct (decide (k' = k)) as [->|Hne].
  - cbn [length]. f_equal. exact (occurrences_absent k ks Hnin).
  - apply elem_of_cons in Hin as [E|Hin]; [congruence|]. exact (IH Hnd Hin).
Qed.

(** ** Shape of the output *)


Lemma isomorphic_key_count spell (v w : json) :
  isomorphic spell v w -> key_count v = key_count w.
Proof.
  intros H. inversion H; subst; try reflexivity. cbn. eapply Forall2_length; eassumption.
Qed.

Lemma toCamelCaseParser_collision_free_obj (props : list (string * json)) :
  NoDup (map camelCaseKey (Obj.keys props)) ->
  toCamelCaseParser (JObj props) = JObj (map rewrite_prop props).
Proof.
  intros Hnd. rewrite toCamelCaseParser_obj.
  rewrite (reduce_collision_free props []) by exact Hnd. reflexivity.
Qed.

(** C1 (as amended): when no two keys of one object are rewritten to the
    same key, at any level of V, the output of the transformer is structurally
    isomorphic to V: arrays keep their length, objects keep their number of
    keys, leaves are unchanged and every key is the rewritten input key at
    the same position. *)
Theorem transformer_isomorphic_when_collision_free (v : json) :
  collision_free v = true ->
  isomorphic respelled v (toCamelCaseParser v).
Proof.
  induction v as [| b | n | s | items IH | props IH] using json_ind; intros Hcf.
  1-4: constructor.
  - cbn [collision_free] in Hcf. cbn [toCamelCaseParser]. constructor.
    induction IH as [|x xs Hx _ IHxs]; cbn [map]; constructor.
    + apply Hx. cbn [forallb] in Hcf. apply andb_true_iff in Hcf. tauto.
    + apply IHxs. cbn [forallb] in Hcf. apply andb_true_iff in Hcf. tauto.
  - cbn [collision_free] in Hcf. apply andb_true_iff in Hcf as [Hnd Hvals].
    apply bool_decide_eq_true in Hnd.
    rewrite toCamelCaseParser_collision_free_obj by exact Hnd.
    constructor. clear Hnd.
    induction IH as [|p ps Hp _ IHps]; cbn [map]; constructor.
    + cbn [forallb] in Hvals. apply andb_true_iff in Hvals as [Hv _].
      split; [reflexivity | exact (Hp Hv)].
    + apply IHps. cbn [forallb] in Hvals. apply andb_true_iff in Hvals. tauto.
Qed.

Lemma transformer_isomorphic_when_collision_free_witness :
  collision_free example_user = true
  /\ isomorphic respelled example_user (toCamelCaseParser example_user).
Proof.
  split; [reflexivity|].
  apply (transformer_isomorphic_when_collision_free example_user). reflexivity.
Defined.

(** C1 (as stated) fails: the two keys of [colliding] are both rewritten to
    ["aB"], the output object has one key where the input has two, and so the
    output is not isomorphic to the input. *)
Lemma transformer_not_always_isomorphic :
  key_count colliding = 2
  /\ key_count (toCamelCaseParser colliding) = 1
  /\ ~ isomorphic respelled colliding (toCamelCaseParser colliding).
Proof.
  split; [reflexivity|]. split; [reflexivity|].
  intros H. apply isomorphic_key_count in H. discriminate H.
Qed.

(** ** Colliding keys *)

Lemma reduce_length_collision (props : list (string * json)) :
  ~ NoDup (map camelCaseKey (Obj.keys props)) ->
  length (fold_left reducer props []) < length props.
Proof.
  intros Hdup.
  pose proof (reduce_length_le props []) as Hle. cbn [length] in Hle.
  destruct (decide (length (fold_left reducer props []) = length props)) as [E|Hne]; [|lia].
  exfalso. apply Hdup.
  set (out := fold_left reducer props []) in *.
  assert (Hnd : NoDup (Obj.keys out)) by (apply reduce_NoDup; constructor).
  assert (Hsub : Obj.keys out ⊆+ map camelCaseKey (Obj.keys props)).
  { apply NoDup_submseteq; [exact Hnd|]. intros k Hk.
    apply reduce_keys in Hk as [Hk|Hk]; [inversion Hk | exact Hk]. }
  apply submseteq_length_Permutation in Hsub.
  - rewrite <- Hsub. exact Hnd.
  - unfold Obj.keys. rewrite !length_map. lia.
Qed.

(** C9: when two distinct keys of one input object are rewritten to the
    same key, the output object holds that key exactly once, bound to the
    transformed value of the last input property rewritten to it, and has
    strictly fewer keys than the input object. *)
Theorem colliding_keys_last_wins (props : list (string * json)) (k1 k2 : string) :
  k1 ∈ Obj.keys props -> k2 ∈ Obj.keys props -> k1 <> k2 ->
  camelCaseKey k1 = camelCaseKey k2 ->
  exists out p,
    toCamelCaseParser (JObj props) = JObj out
    /\ occurrences (camelCaseKey k1) (Obj.keys out) = 1
    /\ last_rewritten_to (camelCaseKey k1) props = Some p
    /\ Obj.get (camelCaseKey k1) out = Some (toCamelCaseParser (snd p))
    /\ length out < length props.
Proof.
  intros H1 H2 Hne Hc.
  destruct (last_rewritten_to_is_Some k1 props H1) as [p Hp].
  exists (fold_left reducer props []), p.
  split; [reflexivity|]. split; [|split; [exact Hp|split]].
  - apply occurrences_NoDup.
    + apply reduce_NoDup. constructor.
    + apply reduce_keys. right. apply list_elem_of_fmap. exists k1. split; [reflexivity|exact H1].
  - rewrite reduce_get, Hp. reflexivity.
  - apply reduce_length_collision. intros Hnd.
    apply Hne. exact (NoDup_map_inj camelCaseKey _ k1 k2 Hnd H1 H2 Hc).
Qed.

Lemma colliding_keys_last_wins_witness :
  exists out p,
    toCamelCaseParser colliding = JObj out
    /\ occurrences "aB" (Obj.keys out) = 1
    /\ last_rewritten_to "aB" [("a_b", JNum 1); ("a-b", JNum 2)] = Some p
    /\ Obj.get "aB" out = Some (toCamelCaseParser (snd p))
    /\ length out < 2.
Proof.
  apply (colliding_keys_last_wins [("a_b", JNum 1); ("a-b", JNum 2)] "a_b" "a-b").
  - left.
  - right. left.
  - discriminate.
  - reflexivity.
Defined.

(** ** Idempotence on camel-cased keys *)

Lemma unique_keys_toCamelCaseParser (v : json) :
  unique_keys (toCamelCaseParser v) = true.
Proof.
  induction v as [| b | n | s | items IH | props IH] using json_ind; try reflexivity.
  - cbn [toCamelCaseParser unique_keys]. apply forallb_elem_of.
    intros x (y & -> & Hy)%list_elem_of_fmap.
    rewrite Forall_forall in IH. exact (IH y Hy).
  - rewrite toCamelCaseParser_obj. cbn [unique_keys]. apply andb_true_iff. split.
    + apply bool_decide_eq_true. apply reduce_NoDup. constructor.
    + apply forallb_elem_of. intros q Hq.
      apply reduce_elem_of in Hq as [Hq|(p & Hp & ->)]; [inversion Hq|].
      rewrite Forall_forall in IH. exact (IH p Hp).
Qed.

Lemma keys_camel_cased_toCamelCaseParser (v : json) :
  keys_camel_cased v = true -> keys_camel_cased (toCamelCaseParser v) = true.
Proof.
  induction v as [| b | n | s | items IH | props IH] using json_ind; try (intros; reflexivity).
  - cbn [toCamelCaseParser keys_camel_cased]. rewrite !forallb_elem_of.
    intros H x (y & -> & Hy)%list_elem_of_fmap.
    rewrite Forall_forall in IH. exact (IH y Hy (H y Hy)).
  - rewrite toCamelCaseParser_obj. cbn [keys_camel_cased]. rewrite !forallb_elem_of.
    intros H q Hq.
    apply reduce_elem_of in Hq as [Hq|(p & Hp & ->)]; [inversion Hq|].
    specialize (H p Hp). apply andb_true_iff in H as [Hk Hv].
    apply negb_true_iff in Hk. cbn [rewrite_prop fst snd].
    rewrite (camelCaseKey_no_match _ Hk), Hk.
    rewrite Forall_forall in IH. rewrite (IH p Hp Hv). reflexivity.
Qed.

Lemma toCamelCaseParser_fixes_camel_cased (v : json) :
  unique_keys v = true -> keys_camel_cased v = true -> toCamelCaseParser v = v.
Proof.
  induction v as [| b | n | s | items IH | props IH] using json_ind; try (intros; reflexivity).
  - cbn [unique_keys keys_camel_cased toCamelCaseParser]. intros Hu Hc. f_equal.
    induction IH as [|x xs Hx _ IHxs]; [reflexivity|].
    cbn [forallb] in Hu, Hc. apply andb_true_iff in Hu as [Hu1 Hu2].
    apply andb_true_iff in Hc as [Hc1 Hc2].
    cbn [map]. rewrite (Hx Hu1 Hc1), (IHxs Hu2 Hc2). reflexivity.
  - cbn [unique_keys keys_camel_cased]. intros [Hnd Hu]%andb_true_iff Hc.
    apply bool_decide_eq_true in Hnd.
    assert (Hmap : map rewrite_prop props = props).
    { clear Hnd. induction IH as [|[k w] ps Hp _ IHps]; [reflexivity|].
      cbn [forallb fst snd] in Hu, Hc. apply andb_true_iff in Hu as [Hu1 Hu2].
      apply andb_true_iff in Hc as [Hc1 Hc2]. apply andb_true_iff in Hc1 as [Hk Hw].
      apply negb_true_iff in Hk.
      cbn [map]. rewrite (IHps Hu2 Hc2). unfold rewrite_prop. cbn [fst snd] in *.
      rewrite (camelCaseKey_no_match _ Hk), (Hp Hu1 Hw). reflexivity. }
    rewrite toCamelCaseParser_collision_free_obj; [rewrite Hmap; reflexivity|].
    replace (map camelCaseKey (Obj.keys props)) with (Obj.keys (map rewrite_prop props)).
    + rewrite Hmap. exact Hnd.
    + unfold Obj.keys. rewrite !map_map. reflexivity.
Qed.

(** C7: on a value whose keys are already camel-cased at every level
    (the pattern "delimiter followed by a letter" matches in none of them),
    applying the transformer twice gives the same result as applying it
    once. *)
Theorem transformer_idempotent_on_camel_cased (v : json) :
  keys_camel_cased v = true ->
  toCamelCaseParser (toCamelCaseParser v) = toCamelCaseParser v.
Proof.
  intros Hc. apply toCamelCaseParser_fixes_camel_cased.
  - apply unique_keys_toCamelCaseParser.
  - apply keys_camel_cased_toCamelCaseParser, Hc.
Qed.

Lemma transformer_idempotent_on_camel_cased_witness :
  keys_camel_cased example_user_camel = true
  /\ toCamelCaseParser (toCamelCaseParser example_user_camel)
     = toCamelCaseParser example_user_camel.
Proof.
  split; [reflexivity|].
  apply (transformer_idempotent_on_camel_cased example_user_camel). reflexivity.
Defined.

(** ** The rewriting rules of the transformer *)

Lemma camelCaseKey_refines_spec_aux (key : string) :
  camelCaseKey key = spec_rewrite_key key
  /\ forall c, camelCaseKey (String c key) = spec_rewrite_key (String c key).
Proof.
  induction key as [|x xs [IH1 IH2]]; [split; reflexivity|].
  split; [apply IH2|]. intros c.
  destruct (Char.is_delim c && Char.is_letter x) eqn:Hm.
  - apply andb_true_iff in Hm as [Hc Hx].
    rewrite camelCaseKey_match by assumption.
    cbn [spec_rewrite_key]. rewrite Hc, Hx. cbn [andb]. f_equal. exact IH1.
  - rewrite camelCaseKey_skip by exact Hm.
    cbn [spec_rewrite_key]. rewrite Hm. f_equal. apply IH2.
Qed.

Lemma camelCaseKey_refines_spec (key : string) :
  camelCaseKey key = spec_rewrite_key key.
Proof. apply camelCaseKey_refines_spec_aux. Qed.

Lemma camelCaseKey_no_delim (key : string) :
  Str.existsb Char.is_delim key = false -> camelCaseKey key = key.
Proof. intros H. apply camelCaseKey_no_match, no_delim_no_match, H. Qed.

Lemma camelCaseKey_delim_no_letter (d c : ascii) (rest : string) :
  Char.is_letter c = false ->
  camelCaseKey (String d (String c rest)) = String d (camelCaseKey (String c rest)).
Proof. intros Hc. apply camelCaseKey_skip. rewrite Hc. apply andb_false_r. Qed.

Lemma camelCaseKey_consecutive_delims (d d' : ascii) (rest : string) :
  Char.is_delim d' = true ->
  camelCaseKey (String d (String d' rest)) = String d (camelCaseKey (String d' rest)).
Proof.
  intros Hd'. apply camelCaseKey_delim_no_letter.
  destruct (Char.is_letter d') eqn:E; [|reflexivity].
  rewrite (is_letter_not_delim d' E) in Hd'. discriminate Hd'.
Qed.

Lemma toCamelCaseParser_scalar (v : json) :
  is_scalar v = true -> toCamelCaseParser v = v.
Proof. destruct v; try reflexivity; discriminate. Qed.

(** C2: the transformer rewrites each key by replacing every delimiter
    (hyphen or underscore) that is immediately followed by a letter with that
    letter uppercased; keys without delimiter are unchanged; a delimiter
    followed by another delimiter, by a non-letter or by nothing is kept;
    the transformer recurses into array elements and object values, returns
    scalars unchanged, maps empty arrays and objects to empty ones, and maps
    the example object of the specification to its camel-cased image. *)
Theorem transformer_rewrites_keys :
  (* the code's replace is the rewriting the specification describes *)
  (forall key, camelCaseKey key = spec_rewrite_key key)
  (* a delimiter followed by a letter: drop the delimiter, uppercase the letter *)
  /\ (forall d c rest,
        Char.is_delim d = true -> Char.is_letter c = true ->
        camelCaseKey (String d (String c rest))
        = String (Char.toUpper c) (camelCaseKey rest))
  (* keys with no delimiter are unchanged *)
  /\ (forall key, Str.existsb Char.is_delim key = false -> camelCaseKey key = key)
  (* consecutive delimiters: the first one is left as it is *)
  /\ (forall d d' rest,
        Char.is_delim d = true -> Char.is_delim d' = true ->
        camelCaseKey (String d (String d' rest))
        = String d (camelCaseKey (String d' rest)))
  (* a delimiter not followed by a letter is left as it is *)
  /\ (forall d c rest,
        Char.is_delim d = true -> Char.is_letter c = false ->
        camelCaseKey (String d (String c rest))
        = String d (camelCaseKey (String c rest)))
  /\ (forall d, camelCaseKey (String d EmptyString) = String d EmptyString)
  (* scalars are returned unchanged *)
  /\ (forall v, is_scalar v = true -> toCamelCaseParser v = v)
  (* recursion into array elements *)
  /\ (forall items, toCamelCaseParser (JArr items) = JArr (map toCamelCaseParser items))
  (* recursion into object values, each stored under its rewritten key *)
  /\ (forall props,
        toCamelCaseParser (JObj props)
        = JObj (fold_left
                  (fun result kv =>
                     Obj.set (spec_rewrite_key (fst kv)) (toCamelCaseParser (snd kv)) result)
                  props []))
  (* empty containers *)
  /\ toCamelCaseParser (JArr []) = JArr []
  /\ toCamelCaseParser (JObj []) = JObj []
  (* the example *)
  /\ toCamelCaseParser example_user = example_user_camel.
Proof.
  split; [exact camelCaseKey_refines_spec|].
  split; [exact camelCaseKey_match|].
  split; [exact camelCaseKey_no_delim|].
  split; [intros d d' rest _ Hd'; exact (camelCaseKey_consecutive_delims d d' rest Hd')|].
  split; [intros d c rest _ Hc; exact (camelCaseKey_delim_no_letter d c rest Hc)|].
  split; [reflexivity|].
  split; [exact toCamelCaseParser_scalar|].
  split; [reflexivity|].
  split.
  { intros props. rewrite toCamelCaseParser_obj. f_equal.
    generalize (@nil (string * json)) as acc.
    induction props as [|p props IH]; intros acc; [reflexivity|].
    cbn [fold_left]. rewrite <- IH. unfold reducer at 2.
    rewrite camelCaseKey_refines_spec. reflexivity. }
  repeat split; reflexivity.
Qed.

Lemma transformer_rewrites_keys_witness :
  camelCaseKey "node_id" = "nodeId"
  /\ camelCaseKey "login" = "login"
  /\ camelCaseKey "a__b" = "a_B"
  /\ camelCaseKey "a_1" = "a_1"
  /\ toCamelCaseParser (JStr "site_admin") = JStr "site_admin".
Proof.
  destruct transformer_rewrites_keys
    as (_ & Hmatch & Hnone & Hcons & Hnolet & _ & Hscalar & _).
  split.
  { change "node_id" with (String "n" (String "o" (String "d" (String "e" "_id")))).
    cbn -[camelCaseKey]. rewrite !camelCaseKey_skip by reflexivity.
    rewrite (Hmatch "_"%char "i"%char "d") by reflexivity. reflexivity. }
  split; [apply (Hnone "login"); reflexivity|].
  split.
  { rewrite (camelCaseKey_skip "a" "_" "_b") by reflexivity.
    rewrite (Hcons "_"%char "_"%char "b") by reflexivity. reflexivity. }
  split.
  { rewrite (camelCaseKey_skip "a" "_" "1") by reflexivity.
    rewrite (Hnolet "_"%char "1"%char "") by reflexivity. reflexivity. }
  apply (Hscalar (JStr "site_admin")). reflexivity.
Defined.

(** ** Validation chains *)

Arguments get_field : simpl never.
Arguments set_field : simpl never.

(** Unfolds the run of a chain whose stack is given, down to the lookups of
    the request. *)
Ltac unfold_run :=
  cbv [run run_stack perPage_rule since_rule search_rule sort_rule order_rule page_rule
       username_rule query param check optional not_ default_ isInt isLength isIn matches
       isString exists_ if_ withMessage addValidator addItem
       c_field c_location c_optional c_stack c_negateNext rev app set_message
       fold_left start];
  cbn -[get_field set_field Validator.isInt Validator.isLength Validator.isIn
        githubUsernameRegex toString].

Lemma get_field_query (req : request) (k : string) :
  get_field req Query k = req_query req !! k.
Proof. reflexivity. Qed.


Lemma get_set_field_ne (req : request) (l l' : location) (k k' : string) (v : option value) :
  k <> k' -> get_field (set_field req l k v) l' k' = get_field req l' k'.
Proof.
  intros Hne. unfold get_field, set_field.
  destruct l, l', v; cbn; try reflexivity.
  - apply lookup_insert_ne, Hne.
  - apply lookup_delete_ne, Hne.
  - apply lookup_insert_ne, Hne.
  - apply lookup_delete_ne, Hne.
Qed.

(** *** What each rule of the users route reports

    Each lemma gives the request a rule leaves and the errors it reports, in
    terms of the query parameters it reads. *)

Ltac case_field req name :=
  let v := fresh "v" in
  let E := fresh "E" in
  destruct (get_field req Query name) as [v|] eqn:E; cbn -[get_field set_field
     Validator.isInt Validator.isLength Validator.isIn githubUsernameRegex toString].

Lemma run_sort_rule (req : request) :
  run sort_rule req
  = (req,
     match get_field req Query "search" with
     | None => []
     | Some _ =>
         checked Query "sort"
           "sort must be one of the following values: followers, repositories, joined"
           (Validator.isIn ["followers"; "repositories"; "joined"])
           (get_field req Query "sort")
     end).
Proof.
  unfold_run. unfold visit, checked.
  case_field req "sort"; case_field req "search"; try reflexivity.
  destruct (Validator.isIn _ _); reflexivity.
Qed.

Lemma run_order_rule (req : request) :
  run order_rule req
  = (req,
     match get_field req Query "search" with
     | None => []
     | Some _ =>
         checked Query "order" "order must be one of the following values: asc, desc"
           (Validator.isIn ["asc"; "desc"]) (get_field req Query "order")
     end).
Proof.
  unfold_run. unfold visit, checked.
  case_field req "order"; case_field req "search"; try reflexivity.
  destruct (Validator.isIn _ _); reflexivity.
Qed.

Lemma run_page_rule (req : request) :
  run page_rule req
  = (req,
     match get_field req Query "search" with
     | None => []
     | Some _ =>
         checked Query "page" "page must be an integer greater than 0"
           (Validator.isInt (Some 1%Z) None) (get_field req Query "page")
     end).
Proof.
  unfold_run. unfold visit, checked.
  case_field req "page"; case_field req "search"; try reflexivity.
  destruct (Validator.isInt _ _ _); reflexivity.
Qed.

Lemma run_since_rule (req : request) :
  run since_rule req
  = (req,
     match get_field req Query "search" with
     | None =>
         checked Query "since" "since must be an integer greater than 0"
           (Validator.isInt (Some 0%Z) None) (get_field req Query "since")
     | Some _ => []
     end).
Proof.
  unfold_run. unfold visit, checked.
  case_field req "since"; case_field req "search"; try reflexivity.
  destruct (Validator.isInt _ _ _); reflexivity.
Qed.

Lemma run_search_rule (req : request) :
  run search_rule req
  = (req,
     match get_field req Query "search" with
     | None => []
     | Some (VStr s) =>
         checked Query "search" "search must be a string with at least 3 characters"
           (Validator.isLength 3) (Some (VStr s))
     | Some (VNum n) =>
         rule_error Query "search" "Invalid value" (Some (VNum n))
         :: checked Query "search" "search must be a string with at least 3 characters"
              (Validator.isLength 3) (Some (VNum n))
     end).
Proof.
  unfold_run. unfold visit, checked.
  case_field req "search"; [|reflexivity].
  destruct v as [s|n]; cbn -[Validator.isLength toString];
    destruct (Validator.isLength _ _); reflexivity.
Qed.

Lemma run_perPage_rule (req : request) :
  run perPage_rule req
  = match get_field req Query "perPage" with
    | Some (VStr EmptyString) => (set_field req Query "perPage" (Some (VNum 30)), [])
    | v =>
        (req, checked Query "perPage" "perPage must be an integer between 1 and 100"
                (Validator.isInt (Some 1%Z) (Some 100%Z)) v)
    end.
Proof.
  unfold_run. unfold visit, checked.
  case_field req "perPage"; [|reflexivity].
  destruct v as [[|c s]|n]; cbn -[Validator.isInt toString set_field get_field].
  - unfold sanitize. cbn -[set_field get_field]. rewrite E. reflexivity.
  - destruct (Validator.isInt _ _ _); reflexivity.
  - destruct (Validator.isInt _ _ _); reflexivity.
Qed.

Lemma checked_param (l : location) (field msg : string) (ok : string -> bool)
    (v : option value) :
  Forall (fun e => e_param e = field /\ is_Some (e_value e)) (checked l field msg ok v).
Proof.
  unfold checked. destruct v as [x|]; [|constructor].
  destruct (ok _); constructor; [|constructor]. split; [reflexivity | eexists; reflexivity].
Qed.

(** The validators of the users route: the first may set [perPage], none of
    the others changes the request, and each reports what it reports on the
    request as it came in. *)
Lemma run_all_users_validators (req : request) :
  run_all users_validators req
  = (fst (run perPage_rule req),
     snd (run perPage_rule req) ++ snd (run since_rule req) ++ snd (run search_rule req)
     ++ snd (run sort_rule req) ++ snd (run order_rule req) ++ snd (run page_rule req) ++ []).
Proof.
  unfold users_validators. cbn [run_all].
  destruct (run perPage_rule req) as [req1 errors1] eqn:E1.
  assert (Hsame : forall k, k <> "perPage" -> get_field req1 Query k = get_field req Query k).
  { intros k Hk. rewrite run_perPage_rule in E1.
    destruct (get_field req Query "perPage") as [[[|c s]|n]|]; injection E1 as <- _;
      try reflexivity.
    apply get_set_field_ne. intros E. apply Hk. symmetry. exact E. }
  rewrite (run_since_rule req1), (run_search_rule req1), (run_sort_rule req1),
    (run_order_rule req1), (run_page_rule req1).
  rewrite (run_since_rule req), (run_search_rule req), (run_sort_rule req),
    (run_order_rule req), (run_page_rule req).
  rewrite !Hsame by discriminate. reflexivity.
Qed.

Lemma sanitized_request (req : request) (k : string) :
  get_field (fst (run perPage_rule req)) Query k
  = if String.eqb k "perPage" then sanitized_perPage (get_field req Query "perPage")
    else get_field req Query k.
Proof.
  rewrite run_perPage_rule. destruct (String.eqb_spec k "perPage") as [->|Hne].
  - destruct (get_field req Query "perPage") as [[[|c s]|n]|] eqn:E; cbn [fst]; try exact E.
    unfold get_field, set_field. cbn. apply lookup_insert_eq.
  - destruct (get_field req Query "perPage") as [[[|c s]|n]|] eqn:E; cbn [fst]; try reflexivity.
    apply get_set_field_ne. intros E'. apply Hne. symmetry. exact E'.
Qed.

Lemma handle_proxied (r : string) (ps : list (string * option value)) (up : upstream) :
  handle (data ← octokit_request r ps; res |> res_send (toCamelCaseParser data)) up
  = proxied r ps up.
Proof.
  unfold handle, proxied, mbind, handler_bind, bind, octokit_request, res_send, throw, ret.
  cbn. destruct (up _) as [data|s]; [|reflexivity].
  destruct (valid_status _); reflexivity.
Qed.

(** The users handler in terms of the query parameters of the request. *)
Lemma get_users_handle (req : request) (up : upstream) :
  handle (get_users req) up
  = match validationResult users_validators req with
    | _ :: _ => (Returned (bad_request (validationResult users_validators req)), [])
    | [] =>
        let perPage := sanitized_perPage (get_field req Query "perPage") in
        let search := get_field req Query "search" in
        if truthy search then
          proxied "GET /search/users"
            [("sort", get_field req Query "sort"); ("page", get_field req Query "page");
             ("order", get_field req Query "order");
             ("q", Some (VStr (template search +:+ " in:login name email type:user")));
             ("per_page", perPage)] up
        else
          proxied "GET /users"
            [("since", get_field req Query "since"); ("per_page", perPage)] up
    end.
Proof.
  unfold validationResult, get_users. rewrite run_all_users_validators. cbn [snd].
  set (errors := _ ++ _). destruct errors as [|e errors]; [|reflexivity].
  rewrite <- !get_field_query, !sanitized_request. cbn [String.eqb Ascii.eqb Bool.eqb].
  cbv zeta. destruct (truthy _); apply handle_proxied.
Qed.

Lemma validationResult_users (req : request) :
  validationResult users_validators req
  = concat (map (fun rule => snd (run rule req)) users_validators).
Proof. unfold validationResult. rewrite run_all_users_validators. reflexivity. Qed.

Lemma validationResult_user (req : request) :
  validationResult user_validators req
  = concat (map (fun rule => snd (run rule req)) user_validators).
Proof.
  unfold validationResult, user_validators. cbn [run_all map concat].
  destruct (run username_rule req) as [req1 errors1]. reflexivity.
Qed.

(** C3: on the users route the rules for [sort], [order] and [page] are
    passed over when [search] is absent, and the rule for [since] is passed
    over when [search] is present: a rule whose guard is false leaves the
    request as it is and reports nothing, whatever the value of its
    parameter, and the validation result then holds no failure for that
    parameter.  When the guard holds the rule does check its parameter.  In
    particular a request carrying only [sort], with any value, is not
    rejected. *)
Theorem guarded_rules_are_skipped (req : request) :
  (get_field req Query "search" = None ->
     run sort_rule req = (req, [])
     /\ run order_rule req = (req, [])
     /\ run page_rule req = (req, [])
     /\ Forall (fun e => e_param e <> "sort" /\ e_param e <> "order" /\ e_param e <> "page")
               (validationResult users_validators req)
     /\ snd (run since_rule req)
        = checked Query "since" "since must be an integer greater than 0"
            (Validator.isInt (Some 0%Z) None) (get_field req Query "since"))
  /\ (is_Some (get_field req Query "search") ->
     run since_rule req = (req, [])
     /\ Forall (fun e => e_param e <> "since") (validationResult users_validators req)
     /\ snd (run sort_rule req)
        = checked Query "sort"
            "sort must be one of the following values: followers, repositories, joined"
            (Validator.isIn ["followers"; "repositories"; "joined"])
            (get_field req Query "sort")
     /\ snd (run order_rule req)
        = checked Query "order" "order must be one of the following values: asc, desc"
            (Validator.isIn ["asc"; "desc"]) (get_field req Query "order")
     /\ snd (run page_rule req)
        = checked Query "page" "page must be an integer greater than 0"
            (Validator.isInt (Some 1%Z) None) (get_field req Query "page"))
  /\ (forall v up,
        validationResult users_validators (request_of [("sort", v)] []) = []
        /\ handle (get_users (request_of [("sort", v)] [])) up
           = proxied "GET /users" [("since", None); ("per_page", None)] up).
Proof.
  split; [|split].
  - intros Hs.
    rewrite run_sort_rule, run_order_rule, run_page_rule, run_since_rule, Hs.
    repeat (split; [reflexivity|]). split; [|reflexivity].
    rewrite validationResult_users. cbn [users_validators map concat].
    rewrite run_sort_rule, run_order_rule, run_page_rule, run_since_rule, run_search_rule, Hs.
    cbn [snd app]. rewrite app_nil_r. apply Forall_app. split.
    + rewrite run_perPage_rule.
      destruct (get_field req Query "perPage") as [[[|c s]|n]|]; cbn [snd];
        try (eapply Forall_impl; [apply checked_param|]; cbn;
             intros e [-> _]; repeat split; discriminate).
      constructor.
    + eapply Forall_impl; [apply checked_param|]. cbn.
      intros e [-> _]; repeat split; discriminate.
  - intros [s Hs].
    rewrite run_sort_rule, run_order_rule, run_page_rule, run_since_rule, Hs.
    split; [reflexivity|]. split; [|repeat split; reflexivity].
    rewrite validationResult_users. cbn [users_validators map concat].
    rewrite run_sort_rule, run_order_rule, run_page_rule, run_since_rule, run_search_rule, Hs.
    cbn [snd app]. rewrite app_nil_r. repeat (apply Forall_app; split).
    + rewrite run_perPage_rule.
      destruct (get_field req Query "perPage") as [[[|c s']|n]|]; cbn [snd];
        try (eapply Forall_impl; [apply checked_param|]; cbn;
             intros e [-> _]; discriminate).
      constructor.
    + destruct s as [s|n].
      * eapply Forall_impl; [apply checked_param|]. cbn. intros e [-> _]; discriminate.
      * constructor; [discriminate|].
        eapply Forall_impl; [apply checked_param|]. cbn. intros e [-> _]; discriminate.
    + eapply Forall_impl; [apply checked_param|]. cbn. intros e [-> _]; discriminate.
    + eapply Forall_impl; [apply checked_param|]. cbn. intros e [-> _]; discriminate.
    + eapply Forall_impl; [apply checked_param|]. cbn. intros e [-> _]; discriminate.
  - intros v up.
    assert (Hok : validationResult users_validators (request_of [("sort", v)] []) = []).
    { rewrite validationResult_users. cbn [users_validators map concat].
      rewrite run_sort_rule, run_order_rule, run_page_rule, run_since_rule, run_search_rule,
        run_perPage_rule.
      reflexivity. }
    split; [exact Hok|]. rewrite get_users_handle, Hok. reflexivity.
Qed.

Lemma guarded_rules_are_skipped_witness :
  run sort_rule (request_of [("sort", VStr "zzz")] [])
    = (request_of [("sort", VStr "zzz")] [], [])
  /\ run since_rule (request_of [("search", VStr "alice"); ("since", VStr "x")] [])
     = (request_of [("search", VStr "alice"); ("since", VStr "x")] [], []).
Proof.
  split.
  - destruct (guarded_rules_are_skipped (request_of [("sort", VStr "zzz")] []))
      as (H & _ & _).
    apply H. vm_compute. reflexivity.
  - destruct (guarded_rules_are_skipped
                (request_of [("search", VStr "alice"); ("since", VStr "x")] []))
      as (_ & H & _).
    apply H. exists (VStr "alice"). vm_compute. reflexivity.
Defined.

(** ** Rejection of invalid requests *)

Lemma get_users_rejects (req : request) (up : upstream) :
  validationResult users_validators req <> [] ->
  handle (get_users req) up
  = (Returned (bad_request (validationResult users_validators req)), []).
Proof.
  intros Hne. rewrite get_users_handle.
  destruct (validationResult users_validators req); [contradiction|reflexivity].
Qed.

Lemma get_user_rejects (req : request) (up : upstream) :
  validationResult user_validators req <> [] ->
  handle (get_user req) up
  = (Returned (bad_request (validationResult user_validators req)), []).
Proof.
  unfold validationResult, get_user.
  destruct (run_all user_validators req) as [req1 errors]. cbn [snd].
  destruct errors; [contradiction|reflexivity].
Qed.

Lemma json_of_error_defined (e : validation_error) (v : value) :
  e_value e = Some v ->
  json_of_error e
  = JObj [("value", json_of_value v); ("msg", JStr (e_msg e));
          ("param", JStr (e_param e)); ("location", JStr (e_location e))].
Proof. unfold json_of_error. intros ->. reflexivity. Qed.

(** C4: on both routes validation runs every rule on the request and
    gathers the failures of all of them, in order (it does not stop at the
    first); when there is at least one failure the handler answers 400 with
    the body [{ errors: [...] }] that lists, for every failure, its value,
    message, parameter and location, and it issues no upstream request. *)
Theorem validation_failures_are_all_reported (req : request) (up : upstream) :
  validationResult users_validators req
    = concat (map (fun rule => snd (run rule req)) users_validators)
  /\ validationResult user_validators req
     = concat (map (fun rule => snd (run rule req)) user_validators)
  /\ (validationResult users_validators req <> [] ->
      handle (get_users req) up
      = (Returned {| statusCode := 400; header_location := None;
                     res_body := JsonBody (JObj [("errors",
                       JArr (map json_of_error (validationResult users_validators req)))]) |},
         []))
  /\ (validationResult user_validators req <> [] ->
      handle (get_user req) up
      = (Returned {| statusCode := 400; header_location := None;
                     res_body := JsonBody (JObj [("errors",
                       JArr (map json_of_error (validationResult user_validators req)))]) |},
         []))
  /\ (forall e v, e_value e = Some v ->
      json_of_error e
      = JObj [("value", json_of_value v); ("msg", JStr (e_msg e));
              ("param", JStr (e_param e)); ("location", JStr (e_location e))]).
Proof.
  split; [apply validationResult_users|].
  split; [apply validationResult_user|].
  split; [apply get_users_rejects|].
  split; [apply get_user_rejects|].
  exact json_of_error_defined.
Qed.

Lemma validation_failures_are_all_reported_witness :
  handle (get_users (request_of [("perPage", VStr "101"); ("search", VStr "ab")] []))
         (fun _ => Resolved JNull)
  = (Returned {| statusCode := 400; header_location := None;
       res_body := JsonBody (JObj [("errors", JArr
         [JObj [("value", JStr "101");
                ("msg", JStr "perPage must be an integer between 1 and 100");
                ("param", JStr "perPage"); ("location", JStr "query")];
          JObj [("value", JStr "ab");
                ("msg", JStr "search must be a string with at least 3 characters");
                ("param", JStr "search"); ("location", JStr "query")]])]) |},
     []).
Proof.
  destruct (validation_failures_are_all_reported
              (request_of [("perPage", VStr "101"); ("search", VStr "ab")] [])
              (fun _ => Resolved JNull)) as (_ & _ & H & _).
  rewrite H; [reflexivity | discriminate].
Defined.

(** ** The username pattern *)

Lemma is_alnum_not_hyphen (c : ascii) :
  Char.is_alnum c = true -> Char.is_hyphen c = false.
Proof. ascii_cases c; vm_compute; intros H; try discriminate H; reflexivity. Qed.

Lemma last_char_cons (c : ascii) (s : string) :
  last_char (String c s) = match s with EmptyString => Some c | _ => last_char s end.
Proof. destruct s; reflexivity. Qed.

Lemma no_double_hyphen_cons (c : ascii) (s : string) :
  no_double_hyphen (String c s)
  = match s with
    | EmptyString => true
    | String c' _ => negb (Char.is_hyphen c && Char.is_hyphen c') && no_double_hyphen s
    end.
Proof. destruct s; reflexivity. Qed.

Lemma username_tail_spec (s : string) :
  username_tail s
  = username_chars s && not_hyphen (last_char s) && no_double_hyphen s.
Proof.
  induction s as [|c rest IH]; [reflexivity|].
  cbn [username_tail]. unfold username_chars in *. cbn [Str.forallb].
  rewrite last_char_cons, no_double_hyphen_cons.
  destruct (Char.is_alnum c) eqn:Ha.
  - pose proof (is_alnum_not_hyphen c Ha) as Hh. rewrite Hh. cbn [orb andb negb].
    destruct rest as [|c' r]; [cbn; rewrite Hh; reflexivity|].
    rewrite IH. reflexivity.
  - cbn [orb]. destruct (Char.is_hyphen c) eqn:Hh; [|reflexivity].
    cbn [andb]. destruct rest as [|c' r].
    + cbn. rewrite Hh. reflexivity.
    + rewrite IH. cbn [Str.forallb andb negb].
      destruct (Char.is_alnum c') eqn:Ha'.
      * rewrite (is_alnum_not_hyphen c' Ha'). cbn [orb andb negb]. reflexivity.
      * cbn [orb andb]. destruct (Char.is_hyphen c'); cbn [andb negb].
        -- rewrite andb_false_r. reflexivity.
        -- reflexivity.
Qed.

(** The pattern of [github-username-regex] accepts exactly the usernames the
    specification describes. *)
Lemma githubUsernameRegex_spec (s : string) :
  githubUsernameRegex s = valid_username_spec s.
Proof.
  destruct s as [|c rest]; [reflexivity|].
  unfold githubUsernameRegex, valid_username_spec.
  rewrite username_tail_spec. unfold username_chars.
  cbn [Str.forallb first_char not_hyphen String.length].
  rewrite last_char_cons, no_double_hyphen_cons.
  replace (Nat.leb 1 (S (String.length rest))) with true by reflexivity.
  replace (Nat.leb (S (String.length rest)) 39) with (Nat.leb (String.length rest) 38)
    by reflexivity.
  destruct (Char.is_alnum c) eqn:Ha.
  - pose proof (is_alnum_not_hyphen c Ha) as Hh. rewrite Hh. cbn [orb andb negb].
    destruct rest as [|c' r]; [cbn; rewrite Hh; reflexivity|].
    destruct (Str.forallb _ _), (not_hyphen _), (no_double_hyphen _), (Nat.leb _ _);
      reflexivity.
  - cbn [orb andb]. destruct (Char.is_hyphen c); cbn [andb negb]; [|reflexivity].
    rewrite andb_false_r. reflexivity.
Qed.

(** ** The user route *)

Lemma run_username_rule (req : request) (u : string) :
  get_field req Params "username" = Some (VStr u) ->
  run username_rule req
  = (req, checked Params "username" "Username must be a valid github username"
            githubUsernameRegex (Some (VStr u))).
Proof.
  intros Hu. unfold_run. unfold visit, checked. rewrite Hu.
  cbn -[githubUsernameRegex]. destruct (githubUsernameRegex u); reflexivity.
Qed.

Lemma get_user_handle (req : request) (u : string) (up : upstream) :
  req_params req !! "username" = Some (VStr u) ->
  handle (get_user req) up
  = if githubUsernameRegex u then
      (match up (get_user_call u) with
       | Resolved data =>
           if valid_status (statusCode (res |> send (toCamelCaseParser data)))
           then Returned (res |> send (toCamelCaseParser data))
           else Returned (res |> status 500 |> send (error_body "Something went wrong"))
       | Rejected s =>
           if status_is s 404
           then Returned (res |> status 404 |> send (error_body "User not found"))
           else Returned (res |> status 500 |> send (error_body "Something went wrong"))
       end, [get_user_call u])
    else
      (Returned (bad_request
         [rule_error Params "username" "Username must be a valid github username"
            (Some (VStr u))]), []).
Proof.
  intros Hu. unfold get_user, user_validators. cbn [run_all].
  rewrite (run_username_rule req u) by exact Hu.
  unfold checked. cbn [js_string].
  destruct (githubUsernameRegex u); cbn [app]; [|reflexivity].
  rewrite Hu. unfold handle, try_catch, mbind, handler_bind, bind, octokit_request,
    res_send, throw, ret, get_user_call.
  cbn. destruct (up _) as [data|s].
  - destruct (valid_status _); reflexivity.
  - destruct (status_is s 404); reflexivity.
Qed.

(** C5: for [GET /users/:username] the username is accepted exactly when it
    consists of alphanumeric characters and single hyphens, does not begin or
    end with a hyphen and has 1 to 39 characters; a username that is not
    accepted is answered 400 with the structured errors and without an
    upstream request; otherwise one upstream request is made, and the answer
    is 200 with the camel-cased user object when it succeeds (with an object
    or an array for data), 404 with [{ error: 'User not found' }] when it
    fails with status 404, and 500 with [{ error: 'Something went wrong' }]
    on any other failure. *)
Theorem get_user_answers (req : request) (u : string) (up : upstream) :
  req_params req !! "username" = Some (VStr u) ->
  githubUsernameRegex u = valid_username_spec u
  /\ (valid_username_spec u = false ->
      handle (get_user req) up
      = (Returned {| statusCode := 400; header_location := None;
           res_body := JsonBody (JObj [("errors", JArr
             [JObj [("value", JStr u);
                    ("msg", JStr "Username must be a valid github username");
                    ("param", JStr "username"); ("location", JStr "params")]])]) |},
         []))
  /\ (valid_username_spec u = true ->
      forall data, up (get_user_call u) = Resolved data -> is_scalar data = false ->
      handle (get_user req) up
      = (Returned {| statusCode := 200; header_location := None;
                     res_body := JsonBody (toCamelCaseParser data) |},
         [get_user_call u]))
  /\ (valid_username_spec u = true ->
      up (get_user_call u) = Rejected (Some 404%Z) ->
      handle (get_user req) up
      = (Returned {| statusCode := 404; header_location := None;
                     res_body := JsonBody (JObj [("error", JStr "User not found")]) |},
         [get_user_call u]))
  /\ (valid_username_spec u = true ->
      forall s, up (get_user_call u) = Rejected s -> s <> Some 404%Z ->
      handle (get_user req) up
      = (Returned {| statusCode := 500; header_location := None;
                     res_body := JsonBody (JObj [("error", JStr "Something went wrong")]) |},
         [get_user_call u]))
  /\ valid_username_spec "octo-cat" = true
  /\ valid_username_spec "-octocat" = false
  /\ valid_username_spec "octocat--2" = false.
Proof.
  intros Hu. pose proof (get_user_handle req u up Hu) as H.
  rewrite githubUsernameRegex_spec in H.
  split; [apply githubUsernameRegex_spec|].
  split; [intros Hv; rewrite H, Hv; reflexivity|].
  split; [intros Hv data Hup Hdata; rewrite H, Hv, Hup;
          destruct data; try discriminate Hdata; reflexivity|].
  split; [intros Hv Hup; rewrite H, Hv, Hup; reflexivity|].
  split; [|repeat split; reflexivity].
  intros Hv s Hup Hs. rewrite H, Hv, Hup.
  assert (E : status_is s 404 = false); [|rewrite E; reflexivity].
  destruct s as [z|]; [|reflexivity]. cbn [status_is].
  apply Z.eqb_neq. intros ->. apply Hs. reflexivity.
Qed.

Lemma get_user_answers_witness :
  handle (get_user (request_of [] [("username", VStr "octocat--2")])) (fun _ => Rejected None)
  = (Returned {| statusCode := 400; header_location := None;
       res_body := JsonBody (JObj [("errors", JArr
         [JObj [("value", JStr "octocat--2");
                ("msg", JStr "Username must be a valid github username");
                ("param", JStr "username"); ("location", JStr "params")]])]) |},
     [])
  /\ handle (get_user (request_of [] [("username", VStr "octo-cat")]))
            (fun _ => Rejected (Some 404%Z))
     = (Returned {| statusCode := 404; header_location := None;
                    res_body := JsonBody (JObj [("error", JStr "User not found")]) |},
        [get_user_call "octo-cat"])
  /\ handle (get_user (request_of [] [("username", VStr "octo-cat")]))
            (fun _ => Rejected (Some 503%Z))
     = (Returned {| statusCode := 500; header_location := None;
                    res_body := JsonBody (JObj [("error", JStr "Something went wrong")]) |},
        [get_user_call "octo-cat"])
  /\ handle (get_user (request_of [] [("username", VStr "octo-cat")]))
            (fun _ => Resolved (JObj [("site_admin", JBool false)]))
     = (Returned {| statusCode := 200; header_location := None;
                    res_body := JsonBody (JObj [("siteAdmin", JBool false)]) |},
        [get_user_call "octo-cat"]).
Proof.
  split; [|split; [|split]].
  - destruct (get_user_answers (request_of [] [("username", VStr "octocat--2")])
                "octocat--2" (fun _ => Rejected None) eq_refl) as (_ & H & _).
    apply H. reflexivity.
  - destruct (get_user_answers (request_of [] [("username", VStr "octo-cat")])
                "octo-cat" (fun _ => Rejected (Some 404%Z)) eq_refl)
      as (_ & _ & _ & H & _).
    apply H; reflexivity.
  - destruct (get_user_answers (request_of [] [("username", VStr "octo-cat")])
                "octo-cat" (fun _ => Rejected (Some 503%Z)) eq_refl)
      as (_ & _ & _ & _ & H & _).
    apply (H eq_refl (Some 503%Z)); [reflexivity | discriminate].
  - destruct (get_user_answers (request_of [] [("username", VStr "octo-cat")])
                "octo-cat" (fun _ => Resolved (JObj [("site_admin", JBool false)]))
                eq_refl) as (_ & _ & H & _).
    apply (H eq_refl (JObj [("site_admin", JBool false)])); reflexivity.
Defined.

(** ** The users route: the upstream request *)

Lemma perPage_rule_errors (req : request) :
  snd (run perPage_rule req)
  = match get_field req Query "perPage" with
    | Some (VStr EmptyString) => []
    | v => checked Query "perPage" "perPage must be an integer between 1 and 100"
             (Validator.isInt (Some 1%Z) (Some 100%Z)) v
    end.
Proof.
  rewrite run_perPage_rule.
  destruct (get_field req Query "perPage") as [[[|c s]|n]|]; reflexivity.
Qed.

Lemma validated_search (req : request) (v : value) :
  validationResult users_validators req = [] ->
  get_field req Query "search" = Some v ->
  exists s, v = VStr s /\ Validator.isLength 3 s = true /\ truthy (Some v) = true.
Proof.
  intros Hok Hs. rewrite validationResult_users in Hok.
  cbn [users_validators map concat] in Hok.
  apply app_eq_nil in Hok as [_ Hok]. apply app_eq_nil in Hok as [_ Hok].
  apply app_eq_nil in Hok as [Hok _].
  rewrite run_search_rule, Hs in Hok. cbn [snd] in Hok.
  destruct v as [s|n]; [|discriminate Hok].
  exists s. unfold checked in Hok. cbn [js_string] in Hok.
  destruct (Validator.isLength 3 s) eqn:Hlen; [|discriminate Hok].
  split; [reflexivity|]. split; [reflexivity|].
  destruct s; [discriminate Hlen | reflexivity].
Qed.

(** Every validated request of the users route makes exactly one upstream
    request: the list of users when [search] is absent, the search
    otherwise; [per_page] is [perPage] as the validators left it. *)
Lemma validated_users_request (req : request) (up : upstream) :
  validationResult users_validators req = [] ->
  (get_field req Query "search" = None ->
   handle (get_users req) up
   = proxied "GET /users"
       [("since", get_field req Query "since");
        ("per_page", sanitized_perPage (get_field req Query "perPage"))] up)
  /\ (forall s, get_field req Query "search" = Some (VStr s) ->
      handle (get_users req) up
      = proxied "GET /search/users"
          [("sort", get_field req Query "sort"); ("page", get_field req Query "page");
           ("order", get_field req Query "order");
           ("q", Some (VStr (s +:+ " in:login name email type:user")));
           ("per_page", sanitized_perPage (get_field req Query "perPage"))] up)
  /\ length (snd (handle (get_users req) up)) = 1.
Proof.
  intros Hok. pose proof (get_users_handle req up) as H. rewrite Hok in H. cbv zeta in H.
  split; [|split].
  - intros Hs. rewrite H, Hs. reflexivity.
  - intros s Hs. destruct (validated_search req _ Hok Hs) as (s' & _ & _ & Ht).
    rewrite H, Hs, Ht. reflexivity.
  - rewrite H. destruct (truthy _); reflexivity.
Qed.

(** C6, at the request without parameters: [optional()] makes the chain
    pass over a missing [perPage], so the [default(30)] that follows is not
    applied and the list of users is requested with [per_page] undefined.
    The default is applied only to a [perPage] that is present and empty. *)
Theorem perPage_default_not_applied_when_absent (up : upstream) :
  handle (get_users (request_of [] [])) up
  = proxied "GET /users" [("since", None); ("per_page", None)] up
  /\ handle (get_users (request_of [("perPage", VStr "")] [])) up
     = proxied "GET /users" [("since", None); ("per_page", Some (VNum 30))] up.
Proof.
  split.
  - destruct (validated_users_request (request_of [] []) up) as (H & _); [|apply H];
      reflexivity.
  - destruct (validated_users_request (request_of [("perPage", VStr "")] []) up)
      as (H & _); [|apply H]; reflexivity.
Qed.

(** C10: when [search] is present, the value of [since], or its absence,
    changes nothing: the upstream requests and the outcome of the handler are
    the same. *)
Theorem since_has_no_effect_when_searching (req : request) (a b : option value)
    (up : upstream) :
  is_Some (get_field req Query "search") ->
  handle (get_users (set_field req Query "since" a)) up
  = handle (get_users (set_field req Query "since" b)) up.
Proof.
  intros [s Hs].
  assert (Hsearch : forall x, get_field (set_field req Query "since" x) Query "search" = Some s).
  { intros x. rewrite get_set_field_ne by discriminate. exact Hs. }
  assert (Herr : forall x,
            validationResult users_validators (set_field req Query "since" x)
            = validationResult users_validators req).
  { intros x. rewrite !validationResult_users. cbn [users_validators map concat].
    rewrite !perPage_rule_errors, !run_since_rule, !run_search_rule, !run_sort_rule,
      !run_order_rule, !run_page_rule.
    rewrite Hsearch, Hs. cbn [snd]. rewrite !get_set_field_ne by discriminate.
    reflexivity. }
  rewrite !get_users_handle, !Herr, !Hsearch.
  destruct (validationResult users_validators req) eqn:Hok; [|reflexivity].
  destruct (validated_search req s Hok Hs) as (s' & _ & _ & Ht).
  cbv zeta. rewrite Ht. rewrite !get_set_field_ne by discriminate. reflexivity.
Qed.

Lemma since_has_no_effect_when_searching_witness :
  handle (get_users (request_of [("since", VStr "x"); ("search", VStr "alice")] []))
         (fun _ => Resolved (JArr []))
  = handle (get_users (request_of [("search", VStr "alice")] []))
           (fun _ => Resolved (JArr [])).
Proof.
  pose proof (since_has_no_effect_when_searching
                (request_of [("search", VStr "alice")] [])
                (Some (VStr "x")) None (fun _ => Resolved (JArr []))) as H.
  etransitivity; [|etransitivity; [apply H; exists (VStr "alice"); reflexivity|]];
    reflexivity.
Defined.

(** ** The fallback middleware *)

(** C8 (as amended): a request that no route answers is redirected to
    [/docs] (status 302, [Location: /docs]) when the caller accepts HTML, and
    is otherwise answered 404 with the JSON body
    [{ error: "Resource isn't found" }]. *)
Theorem not_found_answers (req : request) :
  (req_accepts req "html" = true ->
   not_found req
   = {| statusCode := 302; header_location := Some "/docs";
        res_body := RedirectNotice "/docs" |})
  /\ (req_accepts req "html" = false ->
      not_found req
      = {| statusCode := 404; header_location := None;
           res_body := JsonBody (JObj [("error", JStr "Resource isn't found")]) |}).
Proof. unfold not_found. split; intros ->; reflexivity. Qed.

Lemma not_found_answers_witness :
  not_found html_request
  = {| statusCode := 302; header_location := Some "/docs";
       res_body := RedirectNotice "/docs" |}
  /\ not_found json_request
     = {| statusCode := 404; header_location := None;
          res_body := JsonBody (JObj [("error", JStr "Resource isn't found")]) |}.
Proof.
  split.
  - apply (not_found_answers html_request). reflexivity.
  - apply (not_found_answers json_request). reflexivity.
Defined.

(** C8 (as stated) fails: the redirect sent to a caller that accepts HTML
    has status 302, not 404. *)
Lemma not_found_html_is_not_404 :
  req_accepts html_request "html" = true
  /\ statusCode (not_found html_request) = 302%Z
  /\ statusCode (not_found html_request) <> 404%Z.
Proof. split; [reflexivity|]. split; [reflexivity|discriminate]. Qed.

(** * Further properties of the code *)

(** ** Keys *)

Lemma matches_in_cons (d c : ascii) (rest : string) :
  matches_in (String d (String c rest))
  = if Char.is_delim d && Char.is_letter c then S (matches_in rest)
    else matches_in (String c rest).
Proof. reflexivity. Qed.

Lemma camelCaseKey_length_aux (key : string) :
  String.length (camelCaseKey key) + matches_in key = String.length key
  /\ forall c, String.length (camelCaseKey (String c key)) + matches_in (String c key)
               = String.length (String c key).
Proof.
  induction key as [|x xs [IH1 IH2]]; [split; reflexivity|].
  split; [apply IH2|]. intros c. rewrite matches_in_cons.
  destruct (Char.is_delim c && Char.is_letter x) eqn:Hm.
  - apply andb_true_iff in Hm as [Hc Hx].
    rewrite camelCaseKey_match by assumption. cbn [String.length]. lia.
  - rewrite camelCaseKey_skip by exact Hm. specialize (IH2 x).
    cbn [String.length] in *. lia.
Qed.

Lemma has_match_matches_in (key : string) :
  has_match key = false <-> matches_in key = 0.
Proof.
  induction key as [|d tl IH]; [split; reflexivity|].
  destruct tl as [|c rest]; [split; reflexivity|].
  rewrite has_match_cons, matches_in_cons.
  destruct (Char.is_delim d && Char.is_letter c); cbn [orb].
  - split; discriminate.
  - exact IH.
Qed.

(** Each match shortens the key by one character, and the key is left as
    it is exactly when the pattern matches nowhere in it. *)
Theorem camelCaseKey_shortens (key : string) :
  String.length (camelCaseKey key) + matches_in key = String.length key
  /\ (camelCaseKey key = key <-> has_match key = false).
Proof.
  pose proof (proj1 (camelCaseKey_length_aux key)) as Hlen.
  split; [exact Hlen|]. split.
  - intros E. rewrite E in Hlen. apply has_match_matches_in. lia.
  - apply camelCaseKey_no_match.
Qed.

(** *** No delimiter followed by a lowercase letter is left *)

Lemma is_lower_not_upper (c : ascii) :
  Char.is_lower c = true -> Char.is_upper c = false.
Proof. ascii_cases c; vm_compute; intros H; try discriminate H; reflexivity. Qed.

Lemma is_lower_is_letter (c : ascii) :
  Char.is_lower c = true -> Char.is_letter c = true.
Proof. unfold Char.is_letter. intros ->. reflexivity. Qed.

Lemma has_lower_match_cons (d c : ascii) (rest : string) :
  has_lower_match (String d (String c rest))
  = (Char.is_delim d && Char.is_lower c) || has_lower_match (String c rest).
Proof. reflexivity. Qed.

(** A lowercase first character of the rewritten key is the first character
    of the key. *)
Lemma camelCaseKey_first_lower (key : string) (x : ascii) :
  first_char (camelCaseKey key) = Some x -> Char.is_lower x = true ->
  first_char key = Some x.
Proof.
  destruct key as [|d [|c rest]]; try (intros H _; exact H).
  destruct (Char.is_delim d && Char.is_letter c) eqn:Hm.
  - apply andb_true_iff in Hm as [Hd Hc].
    rewrite camelCaseKey_match by assumption. cbn [first_char].
    intros [= <-] Hl. apply is_lower_not_upper in Hl.
    rewrite toUpper_is_upper in Hl by exact Hc. discriminate Hl.
  - rewrite camelCaseKey_skip by exact Hm. intros H _. exact H.
Qed.

Lemma has_lower_match_first (d : ascii) (s : string) :
  has_lower_match (String d s)
  = (Char.is_delim d
     && match first_char s with Some c => Char.is_lower c | None => false end)
    || has_lower_match s.
Proof. destruct s as [|c rest]; [cbn; rewrite andb_false_r|]; reflexivity. Qed.

Lemma camelCaseKey_no_lower_match_aux (key : string) :
  has_lower_match (camelCaseKey key) = false
  /\ forall c, has_lower_match (camelCaseKey (String c key)) = false.
Proof.
  induction key as [|x xs [IH1 IH2]]; [split; reflexivity|].
  split; [apply IH2|]. intros c.
  destruct (Char.is_delim c && Char.is_letter x) eqn:Hm.
  - apply andb_true_iff in Hm as [Hc Hx].
    rewrite camelCaseKey_match by assumption. rewrite has_lower_match_first, IH1.
    pose proof (toUpper_is_upper x Hx) as Hup.
    destruct (Char.is_delim (Char.toUpper x)) eqn:Hd; [|reflexivity].
    assert (Hl : Char.is_letter (Char.toUpper x) = true)
      by (unfold Char.is_letter; rewrite Hup; apply orb_true_r).
    rewrite (is_letter_not_delim _ Hl) in Hd. discriminate Hd.
  - rewrite camelCaseKey_skip by exact Hm. rewrite has_lower_match_first, (IH2 x).
    rewrite orb_false_r. destruct (Char.is_delim c) eqn:Hc; [|reflexivity].
    cbn [andb] in *.
    destruct (first_char (camelCaseKey (String x xs))) as [y|] eqn:Hy; [|reflexivity].
    destruct (Char.is_lower y) eqn:Hl; [|reflexivity].
    apply camelCaseKey_first_lower in Hy; [|exact Hl]. injection Hy as ->.
    rewrite (is_lower_is_letter _ Hl) in Hm. discriminate Hm.
Qed.

Lemma camelCaseKey_no_lower_match (key : string) :
  has_lower_match (camelCaseKey key) = false.
Proof. apply camelCaseKey_no_lower_match_aux. Qed.

Lemma no_lower_match_keys_toCamelCaseParser (v : json) :
  no_lower_match_keys (toCamelCaseParser v) = true.
Proof.
  induction v as [| b | n | s | items IH | props IH] using json_ind; try reflexivity.
  - cbn [toCamelCaseParser no_lower_match_keys]. apply forallb_elem_of.
    intros x (y & -> & Hy)%list_elem_of_fmap.
    rewrite Forall_forall in IH. exact (IH y Hy).
  - rewrite toCamelCaseParser_obj. cbn [no_lower_match_keys]. apply forallb_elem_of.
    intros q Hq.
    apply reduce_elem_of in Hq as [Hq|(p & Hp & ->)]; [inversion Hq|].
    cbn [rewrite_prop fst snd]. rewrite camelCaseKey_no_lower_match.
    rewrite Forall_forall in IH. rewrite (IH p Hp). reflexivity.
Qed.

(** In the output of the transformer no key, at any level, holds a
    delimiter followed by a lowercase letter, and no rewritten key does. *)
Theorem toCamelCaseParser_no_lower_match (v : json) (key : string) :
  no_lower_match_keys (toCamelCaseParser v) = true
  /\ has_lower_match (camelCaseKey key) = false.
Proof.
  split; [apply no_lower_match_keys_toCamelCaseParser | apply camelCaseKey_no_lower_match].
Qed.

(** *** Only delimiters and letter case change *)

Lemma toUpper_idempotent (c : ascii) : Char.toUpper (Char.toUpper c) = Char.toUpper c.
Proof. ascii_cases c; reflexivity. Qed.

Lemma camelCaseKey_letters_aux (key : string) :
  Str.toUpperCase (without_delims (camelCaseKey key))
    = Str.toUpperCase (without_delims key)
  /\ forall c, Str.toUpperCase (without_delims (camelCaseKey (String c key)))
               = Str.toUpperCase (without_delims (String c key)).
Proof.
  induction key as [|x xs [IH1 IH2]]; [split; reflexivity|].
  split; [apply IH2|]. intros c.
  destruct (Char.is_delim c && Char.is_letter x) eqn:Hm.
  - apply andb_true_iff in Hm as [Hc Hx].
    rewrite camelCaseKey_match by assumption.
    cbn [without_delims]. rewrite Hc, (is_letter_not_delim x Hx).
    assert (Hl : Char.is_letter (Char.toUpper x) = true).
    { unfold Char.is_letter. rewrite (toUpper_is_upper x Hx). apply orb_true_r. }
    rewrite (is_letter_not_delim _ Hl). cbn [Str.toUpperCase].
    rewrite toUpper_idempotent, IH1. reflexivity.
  - rewrite camelCaseKey_skip by exact Hm.
    change (without_delims (String c (camelCaseKey (String x xs))))
      with (if Char.is_delim c then without_delims (camelCaseKey (String x xs))
            else String c (without_delims (camelCaseKey (String x xs)))).
    change (without_delims (String c (String x xs)))
      with (if Char.is_delim c then without_delims (String x xs)
            else String c (without_delims (String x xs))).
    destruct (Char.is_delim c); [apply IH2|].
    cbn [Str.toUpperCase]. rewrite (IH2 x). reflexivity.
Qed.

(** The rewriting only drops delimiters and uppercases letters: without their
    delimiters and compared in uppercase, the key and the rewritten key are
    the same string. *)
Theorem camelCaseKey_keeps_letters (key : string) :
  Str.toUpperCase (without_delims (camelCaseKey key))
  = Str.toUpperCase (without_delims key).
Proof. apply camelCaseKey_letters_aux. Qed.

(** ** Objects *)

(** The own properties of the output object: it has an own property [c]
    exactly when some input key is rewritten to [c], and the value of that
    property is the transformed value of the last input property rewritten
    to [c]. *)
Theorem toCamelCaseParser_lookup (props : list (string * json)) (c : string) :
  exists out,
    toCamelCaseParser (JObj props) = JObj out
    /\ Obj.get c out
       = (fun p => toCamelCaseParser (snd p)) <$> last_rewritten_to c props
    /\ (Obj.get c out = None <-> c ∉ map camelCaseKey (Obj.keys props)).
Proof.
  exists (fold_left reducer props []). split; [reflexivity|].
  assert (Hget : Obj.get c (fold_left reducer props [])
                 = (fun p => toCamelCaseParser (snd p)) <$> last_rewritten_to c props).
  { rewrite reduce_get. destruct (last_rewritten_to c props); reflexivity. }
  split; [exact Hget|]. rewrite Hget. split.
  - intros Hnone (k & -> & Hk)%list_elem_of_fmap.
    destruct (last_rewritten_to_is_Some k props Hk) as [p Hp].
    rewrite Hp in Hnone. discriminate Hnone.
  - intros Hnin. destruct (last_rewritten_to c props) as [p|] eqn:Hp; [|reflexivity].
    exfalso. apply Hnin. unfold last_rewritten_to in Hp.
    apply last_Some_elem_of in Hp. apply list_elem_of_filter in Hp as [<- Hp].
    apply list_elem_of_fmap. exists (fst p). split; [reflexivity|].
    apply list_elem_of_fmap. exists p. split; [reflexivity | exact Hp].
Qed.

(** The keys of the output object are the rewritten keys of the input
    object, each of them once; the same holds at every level of the output. *)
Theorem toCamelCaseParser_keys (props : list (string * json)) :
  exists out,
    toCamelCaseParser (JObj props) = JObj out
    /\ NoDup (Obj.keys out)
    /\ (forall k, k ∈ Obj.keys out <-> k ∈ map camelCaseKey (Obj.keys props))
    /\ unique_keys (JObj out) = true.
Proof.
  exists (fold_left reducer props []). split; [reflexivity|].
  split; [apply reduce_NoDup; constructor|]. split.
  - intros k. rewrite reduce_keys. split; [|auto].
    intros [H|H]; [inversion H | exact H].
  - rewrite <- toCamelCaseParser_obj. apply unique_keys_toCamelCaseParser.
Qed.

(** The output object never has more keys than the input object, and has as
    many exactly when no two input keys are rewritten to the same key. *)
Theorem toCamelCaseParser_key_count (props : list (string * json)) :
  key_count (toCamelCaseParser (JObj props)) <= key_count (JObj props)
  /\ (key_count (toCamelCaseParser (JObj props)) = key_count (JObj props)
      <-> NoDup (map camelCaseKey (Obj.keys props))).
Proof.
  rewrite toCamelCaseParser_obj. cbn [key_count].
  pose proof (reduce_length_le props []) as Hle. cbn [length] in Hle.
  split; [lia|]. split.
  - intros E. destruct (decide (NoDup (map camelCaseKey (Obj.keys props)))) as [H|H];
      [exact H|].
    apply reduce_length_collision in H. lia.
  - intros Hnd. rewrite (reduce_collision_free props []) by exact Hnd.
    cbn [app]. apply length_map.
Qed.

(** ** Which users requests are accepted *)

Lemma checked_nil (l : location) (field msg : string) (ok : string -> bool)
    (v : option value) :
  checked l field msg ok v = [] <-> passes ok v = true.
Proof.
  unfold checked, passes. destruct v as [x|]; [|split; reflexivity].
  destruct (ok (js_string x)); split; (reflexivity || discriminate).
Qed.

Lemma app_nil_iff {A} (l1 l2 : list A) : l1 ++ l2 = [] <-> l1 = [] /\ l2 = [].
Proof.
  split; [apply app_eq_nil|]. intros [-> ->]. reflexivity.
Qed.

Lemma users_request_ok_iff (req : request) :
  validationResult users_validators req = [] <-> users_request_ok req = true.
Proof.
  rewrite validationResult_users. cbn [users_validators map concat].
  rewrite perPage_rule_errors, run_since_rule, run_search_rule, run_sort_rule,
    run_order_rule, run_page_rule.
  cbn [snd]. rewrite app_nil_r. unfold users_request_ok.
  rewrite !app_nil_iff, andb_true_iff.
  assert (HP : match get_field req Query "perPage" with
               | Some (VStr EmptyString) => []
               | v => checked Query "perPage" "perPage must be an integer between 1 and 100"
                        (Validator.isInt (Some 1%Z) (Some 100%Z)) v
               end = []
               <-> value_eqb (get_field req Query "perPage") (Some (VStr "")) 
                   || passes (Validator.isInt (Some 1%Z) (Some 100%Z))
                             (get_field req Query "perPage") = true).
  { destruct (get_field req Query "perPage") as [[[|c s]|n]|];
      rewrite ?checked_nil; cbn [value_eqb String.eqb orb]; try reflexivity.
    split; reflexivity. }
  rewrite HP. clear HP.
  destruct (get_field req Query "search") as [[s|n]|].
  - rewrite !checked_nil, !andb_true_iff. cbn [passes js_string]. tauto.
  - split; [|intros [_ H]; discriminate H].
    intros (_ & _ & H & _). discriminate H.
  - rewrite !checked_nil. tauto.
Qed.

(** A users request whose parameters are plain strings passes validation
    exactly when [perPage] is absent, empty or an integer from 1 to 100 and,
    without [search], [since] is absent or an integer from 0 on, or, with
    [search], [search] has at least 3 characters (as [isLength] counts them)
    and [sort], [order] and [page] are each absent or valid. *)
Theorem users_request_accepted_iff (req : request) (up : upstream) :
  (validationResult users_validators req = [] <-> users_request_ok req = true)
  /\ (users_request_ok req = true <-> length (snd (handle (get_users req) up)) = 1)
  /\ (users_request_ok req = false <->
      handle (get_users req) up
      = (Returned (bad_request (validationResult users_validators req)), [])).
Proof.
  pose proof (users_request_ok_iff req) as Hiff.
  pose proof (get_users_handle req up) as H.
  split; [exact Hiff|].
  destruct (validationResult users_validators req) as [|e errors] eqn:Hv.
  - assert (Hok : users_request_ok req = true) by (apply Hiff; reflexivity).
    rewrite Hok. cbv zeta in H. split.
    + split; [|reflexivity]. intros _. rewrite H. destruct (truthy _); reflexivity.
    + split; [discriminate|]. intros E. rewrite E in H.
      destruct (truthy _); discriminate H.
  - assert (Hok : users_request_ok req = false).
    { destruct (users_request_ok req); [|reflexivity].
      destruct Hiff as [_ Hiff]. discriminate (Hiff eq_refl). }
    rewrite Hok, H. split.
    + split; discriminate.
    + split; reflexivity.
Qed.

(** ** What the users route sends upstream and how it ends *)

Lemma forwarded_users (req : request) (up : upstream) :
  Forall (fun call => Forall forwarded_ok (parameters call))
         (snd (handle (get_users req) up)).
Proof.
  rewrite get_users_handle.
  destruct (validationResult users_validators req) as [|e errors] eqn:Hv; [|constructor].
  pose proof (proj1 (users_request_ok_iff req) Hv) as Hok.
  unfold users_request_ok in Hok. apply andb_true_iff in Hok as [HP Hrest].
  assert (Hpp : passes (Validator.isInt (Some 1%Z) (Some 100%Z))
                       (sanitized_perPage (get_field req Query "perPage")) = true).
  { destruct (get_field req Query "perPage") as [[[|c s]|n]|]; try reflexivity;
      cbn [value_eqb String.eqb orb] in HP; exact HP. }
  cbv zeta. destruct (get_field req Query "search") as [[s|n]|] eqn:Hs.
  - apply andb_true_iff in Hrest as [Hrest Hpage].
    apply andb_true_iff in Hrest as [Hrest Horder].
    apply andb_true_iff in Hrest as [Hlen Hsort].
    assert (Ht : truthy (Some (VStr s)) = true)
      by (destruct s; [discriminate Hlen | reflexivity]).
    rewrite Ht. unfold proxied. cbn [snd parameters].
    repeat constructor; cbn; try assumption.
    exists s. split; [reflexivity | exact Hlen].
  - discriminate Hrest.
  - cbn [truthy]. unfold proxied. cbn [snd parameters].
    repeat constructor; cbn; assumption.
Qed.

(** For a request whose parameters are plain strings, whatever the users
    route passes upstream has passed its rule: [per_page] is undefined or
    writes an integer from 1 to 100, [since] is undefined or writes an integer
    from 0 on, [sort] and [order] are undefined or one of their listed values,
    [page] is undefined or writes an integer from 1 on, and [q] is a search
    string that [isLength] finds at least 3 long, followed by the fixed
    qualifiers. *)
Theorem get_users_forwards_only_validated (req : request) (up : upstream) :
  Forall (fun call =>
            (route call = "GET /users" \/ route call = "GET /search/users")
            /\ Forall forwarded_ok (parameters call))
         (snd (handle (get_users req) up)).
Proof.
  pose proof (forwarded_users req up) as H. revert H.
  rewrite get_users_handle.
  destruct (validationResult users_validators req); [|constructor].
  cbv zeta. destruct (truthy _); unfold proxied; cbn [snd];
    intros [H _]%Forall_cons; (constructor; [|constructor]);
    (split; [cbn [route]; auto | exact H]).
Qed.

Lemma send_container (data : json) (r : response) :
  is_scalar data = false ->
  send (toCamelCaseParser data) r = json_ (toCamelCaseParser data) r.
Proof. destruct data; try discriminate; reflexivity. Qed.

Lemma proxied_container (r : string) (ps : list (string * option value)) (up : upstream)
    (data : json) :
  up {| route := r; parameters := ps |} = Resolved data ->
  is_scalar data = false ->
  proxied r ps up
  = (Returned {| statusCode := 200; header_location := None;
                 res_body := JsonBody (toCamelCaseParser data) |},
     [{| route := r; parameters := ps |}]).
Proof.
  intros Hup Hdata. unfold proxied. rewrite Hup, send_container by exact Hdata.
  reflexivity.
Qed.

(** When the upstream service answers with objects and arrays, the users
    route ends in one of three ways: 400 without an upstream request when
    validation fails; 200 with the camel-cased data after one upstream
    request that succeeded; or, the failure of the one upstream request not
    being caught, with that failure and no answer. *)
Theorem get_users_outcomes (req : request) (up : upstream) :
  answers_with_containers up ->
  match handle (get_users req) up with
  | (Returned r, log) =>
      (validationResult users_validators req <> [] /\ log = []
       /\ r = bad_request (validationResult users_validators req))
      \/ (validationResult users_validators req = []
          /\ exists call data,
               log = [call] /\ up call = Resolved data
               /\ r = {| statusCode := 200; header_location := None;
                         res_body := JsonBody (toCamelCaseParser data) |})
  | (Threw s, log) =>
      validationResult users_validators req = []
      /\ exists call, log = [call] /\ up call = Rejected s
  end.
Proof.
  intros Hcont. rewrite get_users_handle.
  destruct (validationResult users_validators req) as [|e errors].
  - cbv zeta. destruct (truthy _);
      match goal with |- context [proxied ?r ?ps up] =>
        destruct (up {| route := r; parameters := ps |}) as [data|s] eqn:Hup;
        [ rewrite (proxied_container r ps up data Hup (Hcont _ _ Hup));
          right; split; [reflexivity|]; eexists _, data; repeat split; exact Hup
        | unfold proxied; rewrite Hup;
          split; [reflexivity|]; eexists; split; [reflexivity | exact Hup] ]
      end.
  - left. repeat split. discriminate.
Qed.

Lemma get_users_outcomes_witness :
  match handle (get_users (request_of [("search", VStr "alice")] []))
               (fun _ => Resolved (JObj [("total_count", JNum 0)])) with
  | (Returned r, log) =>
      (validationResult users_validators (request_of [("search", VStr "alice")] []) <> []
       /\ log = []
       /\ r = bad_request
                (validationResult users_validators (request_of [("search", VStr "alice")] [])))
      \/ (validationResult users_validators (request_of [("search", VStr "alice")] []) = []
          /\ exists call data,
               log = [call]
               /\ (fun _ => Resolved (JObj [("total_count", JNum 0)])) call = Resolved data
               /\ r = {| statusCode := 200; header_location := None;
                         res_body := JsonBody (toCamelCaseParser data) |})
  | (Threw s, log) =>
      validationResult users_validators (request_of [("search", VStr "alice")] []) = []
      /\ exists call, log = [call]
                      /\ (fun _ => Resolved (JObj [("total_count", JNum 0)])) call
                         = Rejected s
  end.
Proof.
  apply (get_users_outcomes (request_of [("search", VStr "alice")] [])
           (fun _ => Resolved (JObj [("total_count", JNum 0)]))).
  intros call data [= <-]. reflexivity.
Defined.

(** ** The user route, for every request *)

Lemma get_user_cases (req : request) (up : upstream) :
  (exists errors, errors <> []
     /\ handle (get_user req) up = (Returned (bad_request errors), []))
  \/ (exists u, get_field req Params "username" = Some (VStr u)
        /\ valid_username_spec u = true
        /\ handle (get_user req) up
           = (match up (get_user_call u) with
              | Resolved data =>
                  if valid_status (statusCode (res |> send (toCamelCaseParser data)))
                  then Returned (res |> send (toCamelCaseParser data))
                  else Returned (res |> status 500
                                     |> send (error_body "Something went wrong"))
              | Rejected s =>
                  if status_is s 404
                  then Returned (res |> status 404 |> send (error_body "User not found"))
                  else Returned (res |> status 500
                                     |> send (error_body "Something went wrong"))
              end, [get_user_call u])).
Proof.
  destruct (get_field req Params "username") as [[u|n]|] eqn:Hu.
  - pose proof (get_user_handle req u up Hu) as H.
    rewrite githubUsernameRegex_spec in H.
    destruct (valid_username_spec u) eqn:Hv.
    + right. exists u. repeat split; [exact Hv | exact H].
    + left. eexists. split; [|exact H]. discriminate.
  - left. exists (validationResult user_validators req).
    assert (Hne : validationResult user_validators req <> []).
    { rewrite validationResult_user. cbn [user_validators map concat].
      unfold_run. unfold visit. rewrite Hu. cbn -[githubUsernameRegex toString].
      destruct (githubUsernameRegex _); discriminate. }
    split; [exact Hne | apply get_user_rejects, Hne].
  - left. exists (validationResult user_validators req).
    assert (Hne : validationResult user_validators req <> []).
    { rewrite validationResult_user. cbn [user_validators map concat].
      unfold_run. unfold visit. rewrite Hu. cbn. discriminate. }
    split; [exact Hne | apply get_user_rejects, Hne].
Qed.

(** When the upstream service answers with objects and arrays, the user
    route always answers, with status 200, 400, 404 or 500 and a JSON body,
    after at most one upstream request; it answers 400 exactly when it makes
    no upstream request. *)
Theorem get_user_always_answers (req : request) (up : upstream) :
  answers_with_containers up ->
  exists r log,
    handle (get_user req) up = (Returned r, log)
    /\ statusCode r ∈ [200%Z; 400%Z; 404%Z; 500%Z]
    /\ (exists j, res_body r = JsonBody j)
    /\ header_location r = None
    /\ length log <= 1
    /\ (statusCode r = 400%Z <-> log = []).
Proof.
  intros Hcont.
  destruct (get_user_cases req up) as [(errors & Hne & H)|(u & _ & _ & H)]; rewrite H.
  - eexists _, _. split; [reflexivity|]. cbn.
    split; [set_solver|]. split; [eexists; reflexivity|]. repeat split; lia.
  - destruct (up (get_user_call u)) as [data|s] eqn:Hup.
    + rewrite (send_container data res (Hcont _ _ Hup)).
      eexists _, _. split; [reflexivity|]. cbn.
      split; [set_solver|]. split; [eexists; reflexivity|].
      split; [reflexivity|]. split; [lia|]. split; discriminate.
    + destruct (status_is s 404);
        eexists _, _; (split; [reflexivity|]); cbn;
        (split; [set_solver|]); (split; [eexists; reflexivity|]);
        (split; [reflexivity|]); (split; [lia|]); split; discriminate.
Qed.

Lemma get_user_always_answers_witness :
  exists r log,
    handle (get_user (request_of [] [("username", VStr "octo-cat")]))
           (fun _ => Resolved (JObj [("site_admin", JBool false)]))
    = (Returned r, log)
    /\ statusCode r ∈ [200%Z; 400%Z; 404%Z; 500%Z]
    /\ (exists j, res_body r = JsonBody j)
    /\ header_location r = None
    /\ length log <= 1
    /\ (statusCode r = 400%Z <-> log = []).
Proof.
  apply (get_user_always_answers (request_of [] [("username", VStr "octo-cat")])
           (fun _ => Resolved (JObj [("site_admin", JBool false)]))).
  intros call data [= <-]. reflexivity.
Defined.

(** The user route passes a username upstream only when it is a valid one. *)
Theorem get_user_forwards_only_valid_usernames (req : request) (up : upstream) :
  Forall (fun call =>
            exists u, call = get_user_call u
                      /\ valid_username_spec u = true
                      /\ req_params req !! "username" = Some (VStr u))
         (snd (handle (get_user req) up)).
Proof.
  destruct (get_user_cases req up) as [(errors & Hne & H)|(u & Hu & Hv & H)]; rewrite H.
  - constructor.
  - cbn [snd]. constructor; [|constructor]. exists u. repeat split; assumption.
Qed.

(** ** Configuration *)

Lemma truthy_env_var (env : gmap string string) (name : string) :
  truthy (env_var env name)
  = match env !! name with
    | Some s => negb (String.eqb s "")
    | None => false
    end.
Proof. unfold env_var. destruct (env !! name); reflexivity. Qed.

Lemma truthy_js_or (a b : option value) :
  truthy (js_or a b) = truthy a || truthy b.
Proof. unfold js_or. destruct (truthy a) eqn:E; [exact E | reflexivity]. Qed.

(** The server port is never missing or empty: it is [SERVER_PORT] when that
    is set to a non-empty string, otherwise [PORT] when that is, otherwise the
    number 3000; a variable set to the empty string counts as not set.  The
    CORS origin is [CORS_ORIGIN] when that is set to a non-empty string,
    otherwise ["*"]; the CORS methods are [CORS_METHODS] as it is. *)
Theorem config_defaults (env : gmap string string) :
  truthy (serverPort env) = true
  /\ (forall s, env !! "SERVER_PORT" = Some s -> s <> "" ->
      serverPort env = Some (VStr s))
  /\ (env !! "SERVER_PORT" = None \/ env !! "SERVER_PORT" = Some "" ->
      forall p, env !! "PORT" = Some p -> p <> "" -> serverPort env = Some (VStr p))
  /\ (env !! "SERVER_PORT" = None \/ env !! "SERVER_PORT" = Some "" ->
      env !! "PORT" = None \/ env !! "PORT" = Some "" ->
      serverPort env = Some (VNum 3000))
  /\ truthy (cors_origin env) = true
  /\ (forall s, env !! "CORS_ORIGIN" = Some s -> s <> "" ->
      cors_origin env = Some (VStr s))
  /\ (env !! "CORS_ORIGIN" = None \/ env !! "CORS_ORIGIN" = Some "" ->
      cors_origin env = Some (VStr "*"))
  /\ cors_methods env = VStr <$> env !! "CORS_METHODS".
Proof.
  assert (Hset : forall name s, env !! name = Some s -> s <> "" ->
                                truthy (env_var env name) = true
                                /\ env_var env name = Some (VStr s)).
  { intros name s Hs Hne. unfold env_var. rewrite Hs. split; [|reflexivity]. cbn.
    destruct (String.eqb_spec s ""); [contradiction | reflexivity]. }
  assert (Hunset : forall name, env !! name = None \/ env !! name = Some "" ->
                                truthy (env_var env name) = false).
  { intros name [H|H]; unfold env_var; rewrite H; reflexivity. }
  unfold serverPort, cors_origin, js_or. repeat split.
  - change (truthy (js_or (js_or (env_var env "SERVER_PORT") (env_var env "PORT"))
                           (Some (VNum 3000))) = true).
    rewrite !truthy_js_or. apply orb_true_r.
  - intros s Hs Hne. destruct (Hset _ _ Hs Hne) as [Ht E].
    rewrite Ht, Ht. exact E.
  - intros H1 p Hp Hne. destruct (Hset _ _ Hp Hne) as [Ht E].
    rewrite (Hunset _ H1), Ht. exact E.
  - intros H1 H2. rewrite (Hunset _ H1), (Hunset _ H2). reflexivity.
  - change (truthy (js_or (env_var env "CORS_ORIGIN") (Some (VStr "*"))) = true).
    rewrite truthy_js_or. apply orb_true_r.
  - intros s Hs Hne. destruct (Hset _ _ Hs Hne) as [Ht E]. rewrite Ht. exact E.
  - intros H. rewrite (Hunset _ H). reflexivity.
Qed.

Lemma config_defaults_witness :
  serverPort {[ "SERVER_PORT" := "8080"; "PORT" := "5000" ]} = Some (VStr "8080")
  /\ serverPort {[ "SERVER_PORT" := ""; "PORT" := "5000" ]} = Some (VStr "5000")
  /\ serverPort ∅ = Some (VNum 3000)
  /\ cors_origin {[ "CORS_ORIGIN" := "" ]} = Some (VStr "*")
  /\ cors_origin {[ "CORS_ORIGIN" := "https://example.org" ]}
     = Some (VStr "https://example.org").
Proof.
  split; [|split; [|split; [|split]]].
  - destruct (config_defaults {[ "SERVER_PORT" := "8080"; "PORT" := "5000" ]})
      as (_ & H & _).
    apply H; [reflexivity | discriminate].
  - destruct (config_defaults {[ "SERVER_PORT" := ""; "PORT" := "5000" ]})
      as (_ & _ & H & _).
    apply H; [right; reflexivity | reflexivity | discriminate].
  - destruct (config_defaults ∅) as (_ & _ & _ & H & _).
    apply H; left; reflexivity.
  - destruct (config_defaults {[ "CORS_ORIGIN" := "" ]})
      as (_ & _ & _ & _ & _ & _ & H & _).
    apply H. right. reflexivity.
  - destruct (config_defaults {[ "CORS_ORIGIN" := "https://example.org" ]})
      as (_ & _ & _ & _ & _ & H & _).
    apply H; [reflexivity | discriminate].
Defined.

(** ** The earlier users route *)

Lemma run_since_rule_v1 (req : request) :
  run since_rule_v1 req
  = (req, checked Query "since" "since must be an integer greater than 0"
            (Validator.isInt (Some 0%Z) None) (get_field req Query "since")).
Proof.
  unfold since_rule_v1. unfold_run. unfold visit, checked.
  case_field req "since"; [|reflexivity].
  destruct (Validator.isInt _ _ _); reflexivity.
Qed.

Lemma validationResult_users_v1 (req : request) :
  validationResult users_validators_v1 req
  = snd (run perPage_rule req)
    ++ checked Query "since" "since must be an integer greater than 0"
         (Validator.isInt (Some 0%Z) None) (get_field req Query "since").
Proof.
  unfold validationResult, users_validators_v1. cbn [run_all].
  destruct (run perPage_rule req) as [req1 errors1] eqn:E1.
  rewrite run_since_rule_v1. cbn [snd]. rewrite app_nil_r. f_equal. f_equal.
  replace req1 with (fst (run perPage_rule req)) by (rewrite E1; reflexivity).
  rewrite sanitized_request. reflexivity.
Qed.

Lemma get_users_v1_handle (req : request) (up : upstream) :
  handle (get_users_v1 req) up
  = match validationResult users_validators_v1 req with
    | _ :: _ => (Returned (bad_request (validationResult users_validators_v1 req)), [])
    | [] =>
        proxied "GET /users"
          [("per_page", sanitized_perPage (get_field req Query "perPage"));
           ("since", get_field req Query "since")] up
    end.
Proof.
  unfold validationResult, get_users_v1, users_validators_v1. cbn [run_all].
  destruct (run perPage_rule req) as [req1 errors1] eqn:E1.
  rewrite run_since_rule_v1. cbn [snd]. rewrite app_nil_r.
  assert (Hreq : req1 = fst (run perPage_rule req)) by (rewrite E1; reflexivity).
  destruct (errors1 ++ _) as [|e errors]; [|reflexivity].
  rewrite <- !get_field_query, Hreq, !sanitized_request.
  cbn [String.eqb Ascii.eqb Bool.eqb]. apply handle_proxied.
Qed.

(** The earlier users route reads [perPage] and [since] only, and without
    [search] it behaves as the current one: the same validation failures,
    and for a valid request the list of users requested with the same
    [per_page] and [since] (written in the other order).  With [search] it
    still checks [since]. *)
Theorem get_users_v1_compared (req : request) (up : upstream) :
  (forall req',
     get_field req' Query "perPage" = get_field req Query "perPage" ->
     get_field req' Query "since" = get_field req Query "since" ->
     handle (get_users_v1 req') up = handle (get_users_v1 req) up)
  /\ (get_field req Query "search" = None ->
      validationResult users_validators_v1 req = validationResult users_validators req
      /\ (validationResult users_validators req = [] ->
          handle (get_users_v1 req) up
          = proxied "GET /users"
              [("per_page", sanitized_perPage (get_field req Query "perPage"));
               ("since", get_field req Query "since")] up
          /\ handle (get_users req) up
             = proxied "GET /users"
                 [("since", get_field req Query "since");
                  ("per_page", sanitized_perPage (get_field req Query "perPage"))] up))
  /\ validationResult users_validators_v1 req
     = snd (run perPage_rule req)
       ++ checked Query "since" "since must be an integer greater than 0"
            (Validator.isInt (Some 0%Z) None) (get_field req Query "since").
Proof.
  split; [|split; [|apply validationResult_users_v1]].
  - intros req' Hp Hs. rewrite !get_users_v1_handle, !validationResult_users_v1.
    rewrite !perPage_rule_errors, Hp, Hs. reflexivity.
  - intros Hsearch.
    assert (E : validationResult users_validators_v1 req
                = validationResult users_validators req).
    { rewrite validationResult_users_v1, validationResult_users.
      cbn [users_validators map concat].
      rewrite run_since_rule, run_search_rule, run_sort_rule, run_order_rule,
        run_page_rule, Hsearch.
      cbn [snd app]. rewrite app_nil_r. reflexivity. }
    split; [exact E|]. intros Hok. split.
    + rewrite get_users_v1_handle, E, Hok. reflexivity.
    + rewrite get_users_handle, Hok, Hsearch. reflexivity.
Qed.

Lemma get_users_v1_compared_witness :
  validationResult users_validators_v1 (request_of [("since", VStr "x")] [])
  = validationResult users_validators (request_of [("since", VStr "x")] []).
Proof.
  destruct (get_users_v1_compared (request_of [("since", VStr "x")] [])
              (fun _ => Resolved JNull)) as (_ & H & _).
  apply H. reflexivity.
Defined.

(** ** More on what validation and the handlers do *)

(** No key is rewritten to ["__proto__"], the one key under which an
    assignment to a fresh object would not create a property; so every
    assignment of the reduction creates or updates an own property. *)
Theorem camelCaseKey_never_proto (key : string) :
  String.eqb (camelCaseKey key) "__proto__" = false.
Proof.
  destruct (String.eqb_spec (camelCaseKey key) "__proto__") as [E|_]; [|reflexivity].
  destruct (has_match key) eqn:Hm.
  - apply camelCaseKey_match_changes in Hm. rewrite E in Hm. discriminate Hm.
  - rewrite camelCaseKey_no_match in E by exact Hm. subst key. discriminate Hm.
Qed.

(** The validators of the users route change nothing in the request but an
    empty [perPage], which they set to the number 30. *)
Theorem users_validation_only_sets_empty_perPage (req : request) :
  fst (run_all users_validators req)
  = match get_field req Query "perPage" with
    | Some (VStr EmptyString) => set_field req Query "perPage" (Some (VNum 30))
    | _ => req
    end.
Proof.
  rewrite run_all_users_validators. cbn [fst]. rewrite run_perPage_rule.
  destruct (get_field req Query "perPage") as [[[|c s]|n]|]; reflexivity.
Qed.

(** Every failure reported on the users route carries the value that failed,
    the location [query] and the name of one of the six parameters. *)
Theorem users_validation_errors_shape (req : request) :
  Forall (fun e =>
            is_Some (e_value e)
            /\ e_location e = "query"
            /\ e_param e ∈ ["perPage"; "since"; "search"; "sort"; "order"; "page"])
         (validationResult users_validators req).
Proof.
  assert (Hc : forall field msg ok v,
            field ∈ ["perPage"; "since"; "search"; "sort"; "order"; "page"] ->
            Forall (fun e =>
                      is_Some (e_value e) /\ e_location e = "query"
                      /\ e_param e ∈ ["perPage"; "since"; "search"; "sort"; "order"; "page"])
                   (checked Query field msg ok v)).
  { intros field msg ok v Hin. unfold checked. destruct v as [x|]; [|constructor].
    destruct (ok _); constructor; [|constructor].
    cbn. repeat split; [eexists; reflexivity | exact Hin]. }
  rewrite validationResult_users. cbn [users_validators map concat].
  rewrite perPage_rule_errors, run_since_rule, run_search_rule, run_sort_rule,
    run_order_rule, run_page_rule.
  cbn [snd]. rewrite app_nil_r. repeat (apply Forall_app; split).
  - destruct (get_field req Query "perPage") as [[[|c s]|n]|];
      try (apply Hc; set_solver). constructor.
  - destruct (get_field req Query "search"); [constructor | apply Hc; set_solver].
  - destruct (get_field req Query "search") as [[s|n]|]; [apply Hc; set_solver| |constructor].
    constructor; [|apply Hc; set_solver].
    cbn. repeat split; [eexists; reflexivity | set_solver].
  - destruct (get_field req Query "search"); [apply Hc; set_solver | constructor].
  - destruct (get_field req Query "search"); [apply Hc; set_solver | constructor].
  - destruct (get_field req Query "search"); [apply Hc; set_solver | constructor].
Qed.

Lemma send_json_body (chunk : json) (r : response) (j : json) :
  res_body (send chunk r) = JsonBody j -> j = chunk.
Proof. destruct chunk; cbn; intros H; try discriminate H; injection H as <-; reflexivity. Qed.

(** Whenever either route answers 200 with a JSON body, that body is
    camel-cased upstream data: it has no duplicate keys, and no key of it, at
    any level, holds a delimiter followed by a lowercase letter. *)
Theorem successful_bodies_are_camel_cased (req : request) (up : upstream) :
  Forall (fun h =>
            match fst (handle h up) with
            | Returned r =>
                forall j, statusCode r = 200%Z -> res_body r = JsonBody j ->
                          no_lower_match_keys j = true /\ unique_keys j = true
            | Threw _ => True
            end)
         [get_users req; get_user req].
Proof.
  assert (Hsend : forall data j,
            res_body (res |> send (toCamelCaseParser data)) = JsonBody j ->
            no_lower_match_keys j = true /\ unique_keys j = true).
  { intros data j ->%send_json_body.
    split; [apply no_lower_match_keys_toCamelCaseParser
           | apply unique_keys_toCamelCaseParser]. }
  constructor; [|constructor; [|constructor]].
  - rewrite get_users_handle.
    destruct (validationResult users_validators req); [|intros j Hs; discriminate Hs].
    cbv zeta. destruct (truthy _); unfold proxied; cbn [fst];
      match goal with |- context [up ?c] => destruct (up c) as [data|s] end;
      try exact I; destruct (valid_status _); try exact I;
      intros j _; apply Hsend.
  - destruct (get_user_cases req up) as [(errors & _ & H)|(u & _ & _ & H)]; rewrite H.
    + intros j Hs; discriminate Hs.
    + cbn [fst]. destruct (up (get_user_call u)) as [data|s].
      * destruct (valid_status _); [intros j _; apply Hsend | intros j Hs; discriminate Hs].
      * destruct (status_is s 404); intros j Hs; discriminate Hs.
Qed.

(** ** Shape is kept only without collisions *)

(** When the output of the transformer is structurally isomorphic to its
    input, no two keys of any object of the input are rewritten to the same
    key: a collision, at any level, always shows in the shape. *)
Theorem isomorphic_only_when_collision_free (v : json) :
  isomorphic respelled v (toCamelCaseParser v) ->
  collision_free v = true.
Proof.
  induction v as [| b | n | s | items IH | props IH] using json_ind; intros H;
    try reflexivity.
  - cbn [toCamelCaseParser] in H. inversion H as [| | | | xs ys HF |]; subst. clear H.
    cbn [collision_free].
    induction IH as [|x xs Hx _ IHxs]; [reflexivity|].
    cbn [map] in HF. apply Forall2_cons in HF as [Hiso HF].
    cbn [forallb]. rewrite (Hx Hiso), (IHxs HF). reflexivity.
  - assert (Hnd : NoDup (map camelCaseKey (Obj.keys props))).
    { destruct (decide (NoDup (map camelCaseKey (Obj.keys props)))) as [Hnd|Hdup];
        [exact Hnd|].
      apply isomorphic_key_count in H. rewrite toCamelCaseParser_obj in H.
      cbn [key_count] in H. apply reduce_length_collision in Hdup. lia. }
    rewrite toCamelCaseParser_collision_free_obj in H by exact Hnd.
    inversion H as [| | | | |ps qs HF]; subst. clear H.
    cbn [collision_free]. apply andb_true_iff. split.
    + apply bool_decide_eq_true. exact Hnd.
    + clear Hnd. induction IH as [|p ps Hp _ IHps]; [reflexivity|].
      cbn [map] in HF. apply Forall2_cons in HF as [[_ Hiso] HF].
      cbn [forallb]. cbn [rewrite_prop snd] in Hiso.
      rewrite (Hp Hiso), (IHps HF). reflexivity.
Qed.

Lemma isomorphic_only_when_collision_free_witness :
  collision_free (JObj [("node_id", JArr [JObj [("site_admin", JBool true)]])]) = true.
Proof.
  apply (isomorphic_only_when_collision_free
           (JObj [("node_id", JArr [JObj [("site_admin", JBool true)]])])).
  cbn. repeat (constructor; cbn).
Defined.
